(** * poker.py: hand classification and replacement search

    A shallow embedding of [src/poker.py] (Python 2) and the properties of
    its specification.

    Conventions of the embedding:
    - a Python [str] of length one (a rank or a suit symbol) is an [ascii];
      longer strings ([CARD_VALUE_ORDER], [SUITS], sorted rank strings,
      exception messages) are [string]s;
    - a raising computation returns [Raise e], a returning one [Ok v];
    - a Python [dict] is a [gmap], a Python [set] a [gset];
    - Python's [False] is the integer [0], which is how the [x and n]
      predicates of [Hand] are read by [classify_hand]. *)

From Stdlib Require Import ZArith Ascii String List Lia.
From stdpp Require Import base decidable option list sorting countable
  fin_sets gmap strings.

Open Scope string_scope.
Open Scope list_scope.

(** ** Exceptions and the error monad *)

Inductive exn : Type :=
| ValueError (msg : string)
| IndexError (msg : string)
| TypeError (msg : string)
| KeyError (msg : string).

Inductive result (A : Type) : Type :=
| Ok (a : A)
| Raise (e : exn).
Arguments Ok {A} a.
Arguments Raise {A} e.

Definition bind {A B : Type} (r : result A) (k : A -> result B) : result B :=
  match r with
  | Ok a => k a
  | Raise e => Raise e
  end.

Notation "'do' x <- r ; k" := (bind r (fun x => k))
  (at level 10, x name, r at level 100, k at level 200).

Fixpoint mapM {A B : Type} (f : A -> result B) (l : list A) : result (list B) :=
  match l with
  | [] => Ok []
  | x :: xs => do y <- f x; do ys <- mapM f xs; Ok (y :: ys)
  end.

#[global] Instance exn_eq_dec : EqDecision exn.
Proof. solve_decision. Defined.

#[global] Instance result_eq_dec {A : Type} `{EqDecision A} :
  EqDecision (result A).
Proof. solve_decision. Defined.

(** ** Strings as Python uses them *)

(** [s.index(c)] for a one-character [c]: the first position of [c] in [s],
    [ValueError] when [c] does not occur. *)
Fixpoint str_index (s : string) (c : ascii) : result nat :=
  match s with
  | EmptyString => Raise (ValueError "substring not found")
  | String d s' =>
      if Ascii.eqb d c then Ok 0
      else do i <- str_index s' c; Ok (S i)
  end.

(** [set(s)]: the characters of a string as a set. *)
Fixpoint str_set (s : string) : gset ascii :=
  match s with
  | EmptyString => ∅
  | String c s' => {[ c ]} ∪ str_set s'
  end.

(** [sub in s] on strings: [sub] occurs in [s] as a contiguous substring. *)
Fixpoint str_contains (s sub : string) : bool :=
  String.prefix sub s ||
  match s with
  | EmptyString => false
  | String _ s' => str_contains s' sub
  end.

(** [''.join(l)] for a list of one-character strings. *)
Definition str_join (l : list ascii) : string := string_of_list_ascii l.

(** [s[-1]]. *)
Definition str_last (s : string) : result ascii :=
  match rev (list_ascii_of_string s) with
  | [] => Raise (IndexError "string index out of range")
  | c :: _ => Ok c
  end.

(** [sorted(l, key=...)] after the keys have been computed: a stable sort of
    the decorated list by its keys. *)
Section Sorted.
Context {A : Type}.

Fixpoint insert_by_key (x : nat * A) (l : list (nat * A)) : list (nat * A) :=
  match l with
  | [] => [x]
  | y :: l' =>
      if Nat.leb (fst x) (fst y) then x :: y :: l'
      else y :: insert_by_key x l'
  end.

Definition sort_by_key (l : list (nat * A)) : list (nat * A) :=
  foldr insert_by_key [] l.

Definition sorted_with_key (key : A -> result nat) (l : list A)
  : result (list A) :=
  do keys <- mapM key l;
  Ok (map snd (sort_by_key (combine keys l))).
End Sorted.

Definition sorted_nat (l : list nat) : list nat :=
  map snd (sort_by_key (map (fun n => (n, n)) l)).

(** ** Module constants *)

Definition CARD_VALUE_ORDER : string := "a23456789tjqk".

Definition SUITS : string := "hscd".

(** ** Card *)

Record Card : Type := mkCard { value : ascii; suit : ascii }.

#[global] Instance Card_eq_dec : EqDecision Card.
Proof. solve_decision. Defined.

(** Cards as set elements. [hash(card)] is the hash of the two-character
    string [str(card)], which tells the 52 card strings apart. A set looks
    at [==] only between entries of equal hash, that is between cards of
    the same value and suit, where [__cmp__] answers 0. A set of cards is
    therefore keyed by the pair of value and suit.

    The order in which Python iterates over a set is left open by the
    language; [elements] fixes one. The properties of the search below are
    stated on membership and size, or proved through lemmas on an arbitrary
    list of steps, so that none of them rests on this order. *)
#[global] Instance Card_countable : Countable Card.
Proof.
  refine (inj_countable' (fun c => (value c, suit c))
                         (fun p => mkCard (fst p) (snd p)) _).
  intros []; reflexivity.
Defined.

(** [Card.__init__]: the suit is checked first, then the value. *)
Definition Card_init (v s : ascii) : result Card :=
  if negb (bool_decide (s ∈ str_set SUITS)) then
    Raise (ValueError "Not a suit.")
  else if negb (bool_decide (v ∈ str_set CARD_VALUE_ORDER)) then
    Raise (ValueError "Not a value.")
  else Ok (mkCard v s).

(** [Card.from_string]: [card[0]] and [card[1]] of the token. *)
Definition Card_from_string (card : string) : result Card :=
  match card with
  | String v (String s _) => Card_init v s
  | _ => Raise (IndexError "string index out of range")
  end.

(** [Card.__cmp__]. Both indices are looked up from [self.value]. *)
Definition Card_cmp (self other : Card) : result Z :=
  if negb (bool_decide (suit self = suit other)) then
    Raise (ValueError "Comparing different cards.")
  else
    do self_idx <- str_index CARD_VALUE_ORDER (value self);
    do other_index <- str_index CARD_VALUE_ORDER (value self);
    Ok (Z.of_nat other_index - Z.of_nat self_idx)%Z.

(** [a == b] on cards. [Card] defines [__cmp__] and no [__eq__], so
    Python 2 answers [==] from the result of [__cmp__]: true when it is
    zero, and the exception when it raises. *)
Definition Card_eq (self other : Card) : result bool :=
  do c <- Card_cmp self other; Ok (Z.eqb c 0).

(** [Card.__str__]. *)
Definition Card_str (self : Card) : string :=
  String (value self) (String (suit self) EmptyString).

(** A card that [Card_init] can have built. *)
Definition Card_valid (c : Card) : Prop :=
  value c ∈ str_set CARD_VALUE_ORDER ∧ suit c ∈ str_set SUITS.

#[global] Instance Card_valid_dec (c : Card) : Decision (Card_valid c).
Proof. unfold Card_valid. apply _. Defined.

(** ** Hand *)

Record Hand : Type := mkHand { cards : list Card }.

#[global] Instance Hand_eq_dec : EqDecision Hand.
Proof. solve_decision. Defined.

(** [Hand.__init__]. *)
Definition Hand_init (cs : list Card) : result Hand :=
  if negb (Nat.eqb (length cs) 5) then Raise (ValueError "A hand has 5 cards.")
  else Ok (mkHand cs).

(** [Hand._sort_by_value]. *)
Definition _sort_by_value (self : Hand) : result string :=
  do vs <- sorted_with_key (str_index CARD_VALUE_ORDER)
                           (map value (cards self));
  Ok (str_join vs).

(** [Hand._max_values]: the last sorted rank is computed and dropped; the
    method has no [return], so a call that does not raise yields [None]. *)
Definition _max_values (self : Hand) : result (option ascii) :=
  do s <- _sort_by_value self;
  do _c <- str_last s;
  Ok None.

(** [Hand._same_suit]. *)
Definition _same_suit (self : Hand) : result bool :=
  match cards self with
  | [] => Raise (IndexError "list index out of range")
  | head :: _ =>
      Ok (forallb (fun card => bool_decide (suit card = suit head))
                  (cards self))
  end.

(** [Hand._count]. *)
Definition _count (self : Hand) : gmap ascii nat :=
  foldl (fun count card =>
           <[ value card := default 0 (count !! value card) + 1 ]> count)
        ∅ (cards self).

(** [sorted(count.values())]. *)
Definition sorted_values (count : gmap ascii nat) : list nat :=
  sorted_nat (map snd (map_to_list count)).

(** [Hand._straight]. *)
Definition _straight (self : Hand) : result bool :=
  do values <- _sort_by_value self;
  Ok (str_contains CARD_VALUE_ORDER values).

(** [b and n]: [n] when [b] is true, [False] (the integer 0) otherwise. *)
Definition and_code (b : bool) (n : nat) : nat := if b then n else 0.

Definition is_royal_flush (self : Hand) : result nat :=
  let royal_flush_values : gset ascii :=
    list_to_set ["a"; "k"; "q"; "j"; "t"]%char in
  do same <- _same_suit self;
  if same then
    let values : gset ascii := list_to_set (map value (cards self)) in
    Ok (and_code (bool_decide (values = royal_flush_values)) 1)
  else Ok 0.

Definition is_straight_flush (self : Hand) : result nat :=
  do same <- _same_suit self;
  if same then
    do straight <- _straight self; Ok (and_code straight 2)
  else Ok 0.

Definition is_poker (self : Hand) : result nat :=
  let count := _count self in
  Ok (and_code (bool_decide ([1; 4] = sorted_values count)) 3).

Definition is_full (self : Hand) : result nat :=
  let count := _count self in
  Ok (and_code (bool_decide ([2; 3] = sorted_values count)) 4).

Definition is_flush (self : Hand) : result nat :=
  do same <- _same_suit self; Ok (and_code same 5).

Definition is_straight (self : Hand) : result nat :=
  do straight <- _straight self; Ok (and_code straight 6).

Definition is_set (self : Hand) : result nat :=
  Ok (and_code (bool_decide ([1; 1; 3] = sorted_values (_count self))) 7).

Definition is_two_pair (self : Hand) : result nat :=
  Ok (and_code (bool_decide ([1; 2; 2] = sorted_values (_count self))) 8).

Definition is_pair (self : Hand) : result nat :=
  Ok (and_code (bool_decide ([1; 1; 1; 2] = sorted_values (_count self))) 9).

(** The loop of [classify_hand] over the predicate methods: the first
    truthy answer is returned, [10] when none is. *)
Fixpoint first_handtype (preds : list (Hand -> result nat)) (self : Hand)
  : result nat :=
  match preds with
  | [] => Ok 10
  | p :: rest =>
      do handtype <- p self;
      if negb (Nat.eqb handtype 0) then Ok handtype
      else first_handtype rest self
  end.

Definition classify_hand (self : Hand) : result nat :=
  first_handtype [is_royal_flush; is_straight_flush; is_poker; is_full;
                  is_flush; is_straight; is_set; is_two_pair; is_pair] self.

(** [Hand.human_classify]: [klass[n]], a [KeyError] outside the table. *)
Definition klass (n : nat) : option string :=
  match n with
  | 1 => Some "royal-flush"
  | 2 => Some "straight-flush"
  | 3 => Some "four-of-a-kind"
  | 4 => Some "full-house"
  | 5 => Some "flush"
  | 6 => Some "straight"
  | 7 => Some "three-of-a-kind"
  | 8 => Some "two-pairs"
  | 9 => Some "one-pair"
  | 10 => Some "highest-card"
  | _ => None
  end.

Definition human_classify (self : Hand) : result string :=
  do n <- classify_hand self;
  match klass n with
  | Some label => Ok label
  | None => Raise (KeyError "klass")
  end.

(** [Hand.__cmp__]. [CARD_VALUE_ORDER.index] of [None] is a [TypeError], and
    so is a [__cmp__] that falls off its last [elif]. *)
Definition index_of_max (m : option ascii) : result nat :=
  match m with
  | Some v => str_index CARD_VALUE_ORDER v
  | None => Raise (TypeError "expected a character buffer object")
  end.

Definition Hand_cmp (self other : Hand) : result Z :=
  do handtype <- classify_hand self;
  do other_handtype <- classify_hand other;
  if Nat.ltb handtype other_handtype then Ok 1%Z
  else if Nat.ltb other_handtype handtype then Ok (-1)%Z
  else if Nat.eqb handtype other_handtype && Nat.eqb handtype 10 then
    do max_ <- _max_values self;
    do max_other <- _max_values other;
    if bool_decide (max_ = max_other) then Ok 0%Z
    else if bool_decide (Some "a"%char = max_) then Ok 1%Z
    else if bool_decide (Some "a"%char = max_other) then Ok (-1)%Z
    else
      do i_other <- index_of_max max_other;
      do i_self <- index_of_max max_;
      Ok (Z.of_nat i_other - Z.of_nat i_self)%Z
  else if Nat.eqb handtype other_handtype then Ok 0%Z
  else Raise (TypeError "an integer is required").

(** [a > b] on hands, answered by Python 2 from [__cmp__]. *)
Definition Hand_gt (self other : Hand) : result bool :=
  do r <- Hand_cmp self other; Ok (Z.ltb 0 r).

(** [itertools.combinations(pool, r)]: the [r]-length subsequences of the
    pool, in lexicographic order of their positions. *)
Fixpoint combinations {A : Type} (pool : list A) (r : nat) : list (list A) :=
  match r with
  | 0 => [[]]
  | S r' =>
      match pool with
      | [] => []
      | x :: pool' =>
          map (cons x) (combinations pool' r') ++ combinations pool' r
      end
  end.

(** The body of the inner loop of [Hand._search_space]: the hand built for
    the discarded tuple [t] and the draw of [num] cards. *)
Definition candidate (_hand : gset Card) (deck : list Card) (num : nat)
    (t : list Card) : result Hand :=
  let cards : gset Card := _hand ∖ list_to_set t in
  let cards : gset Card := cards ∪ list_to_set (take num deck) in
  Hand_init (elements cards).

(** [Hand._search_space]. The generator is the list of what each turn of
    its loops yields or raises. An exception finishes a generator, which is
    how [search_loop] reads the list: it stops at the first [Raise], and the
    steps behind it are turns that the program never takes. What is said of
    the steps the program takes is therefore said through [search_loop], or
    of a list that [runs_through]. *)
Definition _search_space (hand : Hand) (deck : list Card)
  : list (result Hand) :=
  let _hand : gset Card := list_to_set (cards hand) in
  flat_map (fun num => map (candidate _hand deck num)
                           (combinations (elements _hand) num))
           (seq 1 5).

(** The loop of [Hand.search] over the generator. *)
Fixpoint search_loop (winning_hand : Hand) (space : list (result Hand))
  : result Hand :=
  match space with
  | [] => Ok winning_hand
  | step :: space' =>
      do new_hand <- step;
      do better <- Hand_gt new_hand winning_hand;
      search_loop (if better then new_hand else winning_hand) space'
  end.

(** [Hand.search]. *)
Definition search (hand : Hand) (deck : list Card) : result Hand :=
  search_loop hand (_search_space hand deck).

(** [s.strip().split()]: the maximal runs of non-blank characters. *)
Definition is_blank (c : ascii) : bool :=
  match nat_of_ascii c with
  | 9 | 10 | 11 | 12 | 13 | 32 => true
  | _ => false
  end.

Fixpoint split_tokens (cur : list ascii) (s : string) : list string :=
  let flush (rest : list string) :=
    match cur with
    | [] => rest
    | _ => string_of_list_ascii (rev cur) :: rest
    end in
  match s with
  | EmptyString => flush []
  | String c s' =>
      if is_blank c then flush (split_tokens [] s')
      else split_tokens (c :: cur) s'
  end.

Definition str_split (s : string) : list string := split_tokens [] s.

(** [guess]. *)
Definition guess (hand deck : string) : result string :=
  do hand_cards <- mapM Card_from_string (str_split hand);
  do _hand <- Hand_init hand_cards;
  do _deck <- mapM Card_from_string (str_split deck);
  do best <- search _hand _deck;
  human_classify best.

(** ** Well-formed inputs *)

(** A hand that [Hand_init] can have built from cards that [Card_init] can
    have built. *)
Definition Hand_valid (h : Hand) : Prop :=
  length (cards h) = 5 ∧ Forall Card_valid (cards h).

#[global] Instance Hand_valid_dec (h : Hand) : Decision (Hand_valid h).
Proof. unfold Hand_valid. apply _. Defined.

(** On hand [h] the predicate method [p] answers [False] or its own code. *)
Definition answers (h : Hand) (p : Hand -> result nat) : Prop :=
  exists n, p h = Ok n /\ n <= 9.

(** [_count], read off the list of ranks of the hand. *)
Definition count_values (vs : list ascii) : gmap ascii nat :=
  foldl (fun count v => <[ v := default 0 (count !! v) + 1 ]> count) ∅ vs.

(** Two cards of the hand differ in suit. *)
Definition mixed_suits (h : Hand) : Prop :=
  exists c1 c2, c1 ∈ cards h /\ c2 ∈ cards h /\ suit c1 <> suit c2.

(** Cards and hands used in the examples. *)
Definition card (v s : ascii) : Card := mkCard v s.

Definition hand_of (tokens : list (ascii * ascii)) : Hand :=
  mkHand (map (fun p => card (fst p) (snd p)) tokens).

Definition ace_high_mixed : Hand :=
  hand_of [("t", "h"); ("j", "s"); ("q", "h"); ("k", "d"); ("a", "c")]%char.

Definition queens_set : Hand :=
  hand_of [("t", "h"); ("j", "h"); ("q", "c"); ("q", "d"); ("q", "s")]%char.

Definition sevens_set : Hand :=
  hand_of [("7", "h"); ("7", "c"); ("7", "d"); ("2", "s"); ("k", "s")]%char.

Definition low_cards : Hand :=
  hand_of [("3", "d"); ("5", "s"); ("2", "h"); ("q", "d"); ("t", "d")]%char.

Definition royal_deck : list Card :=
  map (fun p => card (fst p) (snd p))
      [("q", "h"); ("k", "h"); ("a", "h"); ("2", "s"); ("6", "s")]%char.

Definition short_deck : list Card :=
  map (fun p => card (fst p) (snd p))
      [("6", "s"); ("k", "h"); ("9", "h"); ("a", "d")]%char.

Definition twin_twos : Hand :=
  hand_of [("2", "h"); ("2", "h"); ("3", "h"); ("3", "s"); ("3", "c")]%char.

Definition three_queens : gset Card :=
  list_to_set [card "q" "c"; card "q" "d"; card "q" "s"].

(** The local [_hand] of [_search_space]: the set of the hand's cards. *)
Definition hand_set (h : Hand) : gset Card := list_to_set (cards h).

(** The exception of [Hand.__init__]. *)
Definition hand_size_error : exn := ValueError "A hand has 5 cards.".

(** Two positions of the hand hold the same rank and suit. *)
Definition has_duplicate (h : Hand) : Prop :=
  exists i j c1 c2,
    i <> j /\ cards h !! i = Some c1 /\ cards h !! j = Some c2 /\
    value c1 = value c2 /\ suit c1 = suit c2.

(** The number of [r]-length subsequences of a pool of [n] elements. *)
Fixpoint choose (n r : nat) : nat :=
  match r with
  | 0 => 1
  | S r' =>
      match n with
      | 0 => 0
      | S n' => choose n' r' + choose n' r
      end
  end.

(** No step raises: the generator runs through all turns of its loops, and
    the list is what it yields. *)
Definition runs_through (space : list (result Hand)) : Prop :=
  Forall (fun step => exists h, step = Ok h) space.

(** What a step of the search space may be for the search to go through
    it: the hand-size error, or a valid hand. *)
Definition step_ok (step : result Hand) : Prop :=
  step = Raise hand_size_error \/ exists h, step = Ok h /\ Hand_valid h.

(** The position of a rank in [CARD_VALUE_ORDER]; its length, 13, for a
    character that is no rank. *)
Definition rank_of (v : ascii) : nat :=
  match str_index CARD_VALUE_ORDER v with
  | Ok i => i
  | Raise _ => String.length CARD_VALUE_ORDER
  end.

(** The order of a decorated list: by key. *)
Definition by_key {A : Type} (p q : nat * A) : Prop := fst p <= fst q.

(** The order of ranks that [_sort_by_value] sorts by. *)
Definition by_rank (a b : ascii) : Prop := rank_of a <= rank_of b.

(** The number of cards of rank [v] that the hand holds. *)
Definition held (h : Hand) (v : ascii) : nat :=
  length (filter (fun c => value c = v) (cards h)).

(** One turn of the loop of [_count], on the rank of the card. *)
Definition count_step (count : gmap ascii nat) (v : ascii) : gmap ascii nat :=
  <[ v := default 0 (count !! v) + 1 ]> count.

(** The sum of the values of a count table. *)
Definition count_total (count : gmap ascii nat) : nat :=
  sum_list (map snd (map_to_list count)).

(** The ranks of a royal flush, as [is_royal_flush] writes them. *)
Definition royal_values : gset ascii :=
  list_to_set ["a"; "k"; "q"; "j"; "t"]%char.

(** The decision table that the predicate methods amount to, in the order
    in which [classify_hand] asks them. *)
Definition code_of (same straight royal : bool) (counts : list nat) : nat :=
  if same && royal then 1
  else if same && straight then 2
  else if bool_decide ([1; 4] = counts) then 3
  else if bool_decide ([2; 3] = counts) then 4
  else if same then 5
  else if straight then 6
  else if bool_decide ([1; 1; 3] = counts) then 7
  else if bool_decide ([1; 2; 2] = counts) then 8
  else if bool_decide ([1; 1; 1; 2] = counts) then 9
  else 10.

(** The ranks of the five consecutive positions of [CARD_VALUE_ORDER] that
    start at position [i]. *)
Definition run (i : nat) : list ascii :=
  list_ascii_of_string (substring i 5 CARD_VALUE_ORDER).

#[global] Instance by_rank_dec : RelDecision by_rank.
Proof. intros a b. unfold by_rank. apply _. Defined.

(** The sign that [Hand.__cmp__] gives to two category codes. *)
Definition cmp_codes (c1 c2 : nat) : Z :=
  if Nat.ltb c1 c2 then 1%Z else if Nat.ltb c2 c1 then (-1)%Z else 0%Z.

(** [' '.join(map(str, cards))], the body of [Hand.__str__]. *)
Definition cards_str (cs : list Card) : string :=
  String.concat " " (map Card_str cs).

(** [Hand.__str__]. *)
Definition Hand_str (self : Hand) : string := cards_str (cards self).

(** The ten labels of [human_classify]. *)
Definition labels : list string :=
  ["royal-flush"; "straight-flush"; "four-of-a-kind"; "full-house"; "flush";
   "straight"; "three-of-a-kind"; "two-pairs"; "one-pair"; "highest-card"].

(** * Properties *)

(** The assertions at the end of [poker.py]. *)
Example guess_royal_flush :
  guess "th jh qc qd qs" "qh kh ah 2s 6s" = Ok "royal-flush".
Proof. vm_compute. reflexivity. Qed.

Example guess_four_of_a_kind :
  guess "2h 2s 3h 3s 3c" " 2d 3d 6c 9c th" = Ok "four-of-a-kind".
Proof. vm_compute. reflexivity. Qed.

Example guess_full_house :
  guess "2h 2s 3h 3s 3c" " 2d 9c 3d 6c th" = Ok "full-house".
Proof. vm_compute. reflexivity. Qed.

Example guess_flush :
  guess "2h ad 5h ac 7h" " ah 6h 9h 4h 3c" = Ok "flush".
Proof. vm_compute. reflexivity. Qed.

Example guess_straight :
  guess "ac 2d 9c 3s kd" " 5s 4d ks as 4c" = Ok "straight".
Proof. vm_compute. reflexivity. Qed.

Example guess_three_of_a_kind :
  guess "ks ah 2h 3c 4h" " kc 2c tc 2d as" = Ok "three-of-a-kind".
Proof. vm_compute. reflexivity. Qed.

Example guess_two_pairs :
  guess "ah 2c 9s ad 3c" " qh ks js jd kd" = Ok "two-pairs".
Proof. vm_compute. reflexivity. Qed.

Example guess_one_pair :
  guess "6c 9c 8c 2d 7c" " 2h tc 4c 9s ah" = Ok "one-pair".
Proof. vm_compute. reflexivity. Qed.

Example guess_highest_card :
  guess "3d 5s 2h qd td" " 6s kh 9h ad qh" = Ok "highest-card".
Proof. vm_compute. reflexivity. Qed.

(** ** The error monad *)

Lemma bind_Ok {A B : Type} (r : result A) (k : A -> result B) (b : B) :
  bind r k = Ok b -> exists a, r = Ok a /\ k a = Ok b.
Proof. destruct r as [a|e]; simpl; [eauto | discriminate]. Qed.

Lemma mapM_Ok {A B : Type} (f : A -> result B) (l : list A) :
  Forall (fun x => exists y, f x = Ok y) l ->
  exists ys, mapM f l = Ok ys /\ length ys = length l.
Proof.
  induction 1 as [|x l [y Hy] _ [ys [Hys Hlen]]]; simpl.
  - exists []. split; reflexivity.
  - rewrite Hy, Hys. simpl. exists (y :: ys). simpl. split; congruence.
Qed.

(** ** Strings *)

Lemma str_index_Ok (s : string) (c : ascii) :
  c ∈ str_set s -> exists i, str_index s c = Ok i.
Proof.
  induction s as [|d s IH]; simpl; intros Hin.
  - apply not_elem_of_empty in Hin. destruct Hin.
  - destruct (Ascii.eqb d c) eqn:E; [eauto|].
    apply Ascii.eqb_neq in E.
    apply elem_of_union in Hin as [Hin|Hin].
    + apply elem_of_singleton in Hin. congruence.
    + destruct (IH Hin) as [i Hi]. rewrite Hi. simpl. eauto.
Qed.

Lemma str_last_Ok (s : string) :
  0 < String.length s -> exists c, str_last s = Ok c.
Proof.
  unfold str_last. intros Hlen.
  destruct (rev (list_ascii_of_string s)) as [|c l] eqn:E; [|eauto].
  apply (f_equal (@length ascii)) in E.
  rewrite length_rev in E.
  assert (Hl : forall t, length (list_ascii_of_string t) = String.length t)
    by (induction t; simpl; congruence).
  rewrite Hl in E. simpl in E. lia.
Qed.

Lemma length_str_join (l : list ascii) :
  String.length (str_join l) = length l.
Proof. unfold str_join. induction l; simpl; congruence. Qed.

(** ** Sorting *)

Lemma length_insert_by_key {A : Type} (x : nat * A) (l : list (nat * A)) :
  length (insert_by_key x l) = S (length l).
Proof.
  induction l as [|y l IH]; simpl; [reflexivity|].
  destruct (Nat.leb (fst x) (fst y)); simpl; congruence.
Qed.

Lemma length_sort_by_key {A : Type} (l : list (nat * A)) :
  length (sort_by_key l) = length l.
Proof.
  unfold sort_by_key.
  induction l as [|x l IH]; simpl; [reflexivity|].
  rewrite length_insert_by_key. congruence.
Qed.

Lemma sorted_with_key_Ok {A : Type} (key : A -> result nat) (l : list A) :
  Forall (fun x => exists k, key x = Ok k) l ->
  exists l', sorted_with_key key l = Ok l' /\ length l' = length l.
Proof.
  intros Hall. unfold sorted_with_key.
  destruct (mapM_Ok key l Hall) as [keys [Hkeys Hlen]].
  rewrite Hkeys. simpl. eexists. split; [reflexivity|].
  rewrite length_map, length_sort_by_key, length_combine. lia.
Qed.

(** ** Card *)

Lemma Card_cmp_same_suit (a b : Card) :
  Card_valid a -> suit a = suit b -> Card_cmp a b = Ok 0%Z.
Proof.
  intros [Hv _] Hs. unfold Card_cmp.
  rewrite bool_decide_eq_true_2 by exact Hs. cbn [negb].
  destruct (str_index_Ok _ _ Hv) as [i Hi]. rewrite Hi. cbn [bind].
  f_equal. lia.
Qed.

Lemma Card_cmp_other_suit (a b : Card) :
  suit a <> suit b ->
  Card_cmp a b = Raise (ValueError "Comparing different cards.").
Proof.
  intros Hs. unfold Card_cmp.
  rewrite bool_decide_eq_false_2 by exact Hs. reflexivity.
Qed.

(** ** Hand: the helpers never raise on a valid hand *)

Lemma _sort_by_value_Ok (h : Hand) :
  Forall Card_valid (cards h) ->
  exists s, _sort_by_value h = Ok s /\ String.length s = length (cards h).
Proof.
  intros Hall. unfold _sort_by_value.
  destruct (sorted_with_key_Ok (str_index CARD_VALUE_ORDER)
              (map value (cards h))) as [vs [Hvs Hlen]].
  { apply Forall_map. eapply Forall_impl; [exact Hall|].
    intros c [Hv _]. apply str_index_Ok, Hv. }
  rewrite Hvs. cbn [bind]. eexists. split; [reflexivity|].
  rewrite length_str_join, Hlen. apply length_map.
Qed.

Lemma _max_values_None (h : Hand) :
  Hand_valid h -> _max_values h = Ok None.
Proof.
  intros [Hlen Hall]. unfold _max_values.
  destruct (_sort_by_value_Ok h Hall) as [s [Hs Hl]].
  rewrite Hs. cbn [bind].
  destruct (str_last_Ok s) as [c Hc]; [lia|].
  rewrite Hc. reflexivity.
Qed.

Lemma _same_suit_Ok (h : Hand) :
  Hand_valid h -> exists b, _same_suit h = Ok b.
Proof.
  intros [Hlen _]. unfold _same_suit.
  destruct (cards h); [discriminate | eauto].
Qed.

Lemma _straight_Ok (h : Hand) :
  Hand_valid h -> exists b, _straight h = Ok b.
Proof.
  intros [_ Hall]. unfold _straight.
  destruct (_sort_by_value_Ok h Hall) as [s [Hs _]].
  rewrite Hs. cbn [bind]. eauto.
Qed.

Lemma and_code_le (b : bool) (n : nat) : and_code b n <= n.
Proof. destruct b; simpl; lia. Qed.

Lemma first_handtype_range (preds : list (Hand -> result nat)) (h : Hand) :
  Forall (answers h) preds ->
  exists c, first_handtype preds h = Ok c /\ 1 <= c <= 10.
Proof.
  induction 1 as [|p preds [n [Hn Hle]] _ IH]; simpl.
  - exists 10. split; [reflexivity | lia].
  - rewrite Hn. cbn [bind].
    destruct (Nat.eqb n 0) eqn:E; cbn [negb]; [exact IH|].
    apply Nat.eqb_neq in E. exists n. split; [reflexivity | lia].
Qed.

Ltac enum_small :=
  try lia;
  lazymatch goal with
  | n : nat |- _ =>
      assert (n = 1 \/ n = 2 \/ n = 3 \/ n = 4 \/ n = 5) as
        [-> | [-> | [-> | [-> | ->]]]] by lia;
      enum_small
  | _ => idtac
  end.

Ltac code_cases c :=
  assert (c = 1 \/ c = 2 \/ c = 3 \/ c = 4 \/ c = 5 \/ c = 6 \/ c = 7 \/
          c = 8 \/ c = 9 \/ c = 10)
    as [-> | [-> | [-> | [-> | [-> | [-> | [-> | [-> | [-> | ->]]]]]]]]]
    by lia.

Ltac answer :=
  eexists; split;
  [ reflexivity
  | first [ lia | etransitivity; [apply and_code_le | lia] ] ].

Lemma classify_hand_range (h : Hand) :
  Hand_valid h -> exists c, classify_hand h = Ok c /\ 1 <= c <= 10.
Proof.
  intros Hv. apply first_handtype_range.
  destruct (_same_suit_Ok h Hv) as [same Hsame].
  destruct (_straight_Ok h Hv) as [st Hst].
  repeat
    match goal with
    | |- Forall _ (_ :: _) => constructor
    | |- Forall _ [] => constructor
    end; unfold answers.
  - unfold is_royal_flush. rewrite Hsame. cbn [bind]. destruct same; answer.
  - unfold is_straight_flush. rewrite Hsame. cbn [bind].
    destruct same; [rewrite Hst; cbn [bind]|]; answer.
  - unfold is_poker. answer.
  - unfold is_full. answer.
  - unfold is_flush. rewrite Hsame. cbn [bind]. answer.
  - unfold is_straight. rewrite Hst. cbn [bind]. answer.
  - unfold is_set. answer.
  - unfold is_two_pair. answer.
  - unfold is_pair. answer.
Qed.

Lemma _count_values (h : Hand) :
  _count h = count_values (map value (cards h)).
Proof.
  unfold _count, count_values.
  rewrite (foldl_fmap _ _ (cards h) value). reflexivity.
Qed.

Lemma _same_suit_mixed (h : Hand) :
  mixed_suits h -> _same_suit h = Ok false.
Proof.
  intros (c1 & c2 & H1 & H2 & Hne). unfold _same_suit.
  destruct (cards h) as [|head l] eqn:E.
  - apply elem_of_nil in H1. destruct H1.
  - f_equal. apply not_true_is_false. intros Hall.
    rewrite forallb_forall in Hall.
    apply list_elem_of_In, Hall, bool_decide_eq_true_1 in H1.
    apply list_elem_of_In, Hall, bool_decide_eq_true_1 in H2.
    congruence.
Qed.

(** Every arrangement of the ranks T, J, Q, K, A sorts to the string
    [atjqk] and counts each rank once. *)
Lemma ace_high_values :
  Forall (fun vs =>
            sorted_with_key (str_index CARD_VALUE_ORDER) vs
              = Ok ["a"; "t"; "j"; "q"; "k"]%char
            /\ sorted_values (count_values vs) = [1; 1; 1; 1; 1])
         (permutations ["t"; "j"; "q"; "k"; "a"]%char).
Proof. apply (bool_decide_unpack _). vm_compute. reflexivity. Qed.

Lemma ace_high_classify (h : Hand) :
  map value (cards h) ≡ₚ ["t"; "j"; "q"; "k"; "a"]%char ->
  mixed_suits h ->
  _sort_by_value h = Ok "atjqk" /\ _straight h = Ok false /\
  classify_hand h = Ok 10.
Proof.
  intros Hperm Hmixed.
  pose proof (_same_suit_mixed h Hmixed) as Hsame.
  symmetry in Hperm. apply permutations_Permutation in Hperm.
  pose proof ace_high_values as Hall.
  rewrite Forall_forall in Hall. destruct (Hall _ Hperm) as [Hsort Hcount].
  assert (Hs : _sort_by_value h = Ok "atjqk").
  { unfold _sort_by_value. rewrite Hsort. reflexivity. }
  assert (Hst : _straight h = Ok false).
  { unfold _straight. rewrite Hs. reflexivity. }
  split; [exact Hs | split; [exact Hst|]].
  unfold classify_hand, first_handtype, is_royal_flush, is_straight_flush,
    is_poker, is_full, is_flush, is_straight, is_set, is_two_pair, is_pair.
  rewrite Hsame, Hst, _count_values, Hcount. reflexivity.
Qed.

(** ** Classification *)

(** C1. On every valid 5-card hand [classify_hand] returns a code between 1
    and 10. A hand holding the ranks T, J, Q, K, A in mixed suits sorts to
    the string [atjqk], which is no substring of [a23456789tjqk]; its
    straight test is false and it classifies as highest-card (10), not as
    straight (6). *)
Theorem classify_hand_code (h : Hand) (Hv : Hand_valid h) :
  (exists c, classify_hand h = Ok c /\ 1 <= c <= 10) /\
  (map value (cards h) ≡ₚ ["t"; "j"; "q"; "k"; "a"]%char ->
   mixed_suits h ->
   _sort_by_value h = Ok "atjqk" /\
   str_contains CARD_VALUE_ORDER "atjqk" = false /\
   _straight h = Ok false /\
   classify_hand h = Ok 10 /\ classify_hand h <> Ok 6).
Proof.
  split; [apply classify_hand_range, Hv|].
  intros Hperm Hmixed.
  destruct (ace_high_classify h Hperm Hmixed) as (Hs & Hst & Hc).
  split; [exact Hs | split; [reflexivity | split; [exact Hst|]]].
  split; [exact Hc | rewrite Hc; discriminate].
Qed.

Lemma classify_hand_code_witness :
  Hand_valid ace_high_mixed /\ classify_hand ace_high_mixed = Ok 10.
Proof.
  assert (Hv : Hand_valid ace_high_mixed)
    by (apply (bool_decide_unpack _); vm_compute; reflexivity).
  split; [exact Hv|].
  apply (classify_hand_code ace_high_mixed Hv).
  - reflexivity.
  - exists (card "t" "h"), (card "j" "s").
    split; [|split]; [vm_compute; repeat constructor..|discriminate].
Defined.

(** ** The hand comparator *)

(** C4. For two valid hands both classifications succeed; the hand with the
    strictly lower code wins ([__cmp__] is 1 for it and -1 for the other),
    and two hands of the same category other than 10 compare as equal. *)
Theorem Hand_cmp_by_category (h1 h2 : Hand)
    (Hv1 : Hand_valid h1) (Hv2 : Hand_valid h2) :
  exists c1 c2,
    classify_hand h1 = Ok c1 /\ classify_hand h2 = Ok c2 /\
    (c1 < c2 -> Hand_cmp h1 h2 = Ok 1%Z /\ Hand_gt h1 h2 = Ok true) /\
    (c2 < c1 -> Hand_cmp h1 h2 = Ok (-1)%Z /\ Hand_gt h1 h2 = Ok false) /\
    (c1 = c2 -> c1 <> 10 ->
     Hand_cmp h1 h2 = Ok 0%Z /\ Hand_gt h1 h2 = Ok false).
Proof.
  destruct (classify_hand_range h1 Hv1) as [c1 [Hc1 _]].
  destruct (classify_hand_range h2 Hv2) as [c2 [Hc2 _]].
  exists c1, c2. split; [exact Hc1 | split; [exact Hc2|]].
  unfold Hand_gt, Hand_cmp. rewrite Hc1, Hc2. cbn [bind].
  split; [|split].
  - intros Hlt. apply Nat.ltb_lt in Hlt. rewrite Hlt. split; reflexivity.
  - intros Hlt.
    assert (H12 : Nat.ltb c1 c2 = false) by (apply Nat.ltb_ge; lia).
    apply Nat.ltb_lt in Hlt. rewrite H12, Hlt. split; reflexivity.
  - intros Heq Hne. subst c2.
    rewrite Nat.ltb_irrefl, Nat.eqb_refl.
    apply Nat.eqb_neq in Hne. rewrite Hne. split; reflexivity.
Qed.

Lemma Hand_cmp_by_category_witness :
  Hand_valid queens_set /\ Hand_valid low_cards /\
  Hand_cmp queens_set low_cards = Ok 1%Z /\
  Hand_cmp low_cards queens_set = Ok (-1)%Z /\
  Hand_cmp queens_set sevens_set = Ok 0%Z.
Proof.
  assert (Hq : Hand_valid queens_set)
    by (apply (bool_decide_unpack _); vm_compute; reflexivity).
  assert (Hl : Hand_valid low_cards)
    by (apply (bool_decide_unpack _); vm_compute; reflexivity).
  assert (Hs : Hand_valid sevens_set)
    by (apply (bool_decide_unpack _); vm_compute; reflexivity).
  split; [exact Hq | split; [exact Hl|]].
  split; [|split].
  - destruct (Hand_cmp_by_category queens_set low_cards Hq Hl)
      as (c1 & c2 & H1 & H2 & Hlt & _).
    vm_compute in H1, H2. injection H1 as <-. injection H2 as <-.
    apply Hlt. lia.
  - destruct (Hand_cmp_by_category low_cards queens_set Hl Hq)
      as (c1 & c2 & H1 & H2 & _ & Hgt & _).
    vm_compute in H1, H2. injection H1 as <-. injection H2 as <-.
    apply Hgt. lia.
  - destruct (Hand_cmp_by_category queens_set sevens_set Hq Hs)
      as (c1 & c2 & H1 & H2 & _ & _ & Heq).
    vm_compute in H1, H2. injection H1 as <-. injection H2 as <-.
    apply Heq; lia.
Defined.

(** C5. On a valid hand [_max_values] returns [None]: the maximum it
    computes is dropped. Two valid hands that both classify as highest-card
    (10) therefore reach [None == None] and compare as equal; nothing is
    raised. *)
Theorem Hand_cmp_highest_card (h1 h2 : Hand)
    (Hv1 : Hand_valid h1) (Hv2 : Hand_valid h2)
    (Hc1 : classify_hand h1 = Ok 10) (Hc2 : classify_hand h2 = Ok 10) :
  _max_values h1 = Ok None /\ _max_values h2 = Ok None /\
  Hand_cmp h1 h2 = Ok 0%Z.
Proof.
  pose proof (_max_values_None h1 Hv1) as Hm1.
  pose proof (_max_values_None h2 Hv2) as Hm2.
  split; [exact Hm1 | split; [exact Hm2|]].
  unfold Hand_cmp. rewrite Hc1, Hc2. cbn [bind].
  rewrite Hm1, Hm2. reflexivity.
Qed.

Lemma Hand_cmp_highest_card_witness :
  Hand_valid low_cards /\ Hand_valid ace_high_mixed /\
  Hand_cmp low_cards ace_high_mixed = Ok 0%Z.
Proof.
  assert (Hl : Hand_valid low_cards)
    by (apply (bool_decide_unpack _); vm_compute; reflexivity).
  assert (Ha : Hand_valid ace_high_mixed)
    by (apply (bool_decide_unpack _); vm_compute; reflexivity).
  split; [exact Hl | split; [exact Ha|]].
  apply (Hand_cmp_highest_card low_cards ace_high_mixed Hl Ha);
    vm_compute; reflexivity.
Defined.

(** ** Cards *)

(** C6. [Card.__cmp__] looks both indices up from [self.value]: on the two
    of hearts against the three of hearts it returns 0, although the ranks
    differ. *)
Theorem Card_cmp_two_three_hearts :
  Card_cmp (card "2" "h") (card "3" "h") = Ok 0%Z.
Proof. reflexivity. Qed.

(** C7, as the code has it. For a card built by the constructor, equality
    with a card of the same rank and suit holds, and equality with a card of
    another suit raises the mixed-suit error of [__cmp__]. *)
Theorem Card_eq_guarded (a b : Card) (Ha : Card_valid a) :
  (value a = value b -> suit a = suit b -> Card_eq a b = Ok true) /\
  (suit a <> suit b ->
   Card_eq a b = Raise (ValueError "Comparing different cards.")).
Proof.
  unfold Card_eq. split.
  - intros _ Hs. rewrite (Card_cmp_same_suit a b Ha Hs). reflexivity.
  - intros Hs. rewrite (Card_cmp_other_suit a b Hs). reflexivity.
Qed.

Lemma Card_eq_guarded_witness :
  Card_valid (card "2" "h") /\
  Card_eq (card "2" "h") (card "2" "h") = Ok true /\
  Card_eq (card "2" "h") (card "2" "s")
    = Raise (ValueError "Comparing different cards.").
Proof.
  assert (Hv : Card_valid (card "2" "h"))
    by (apply (bool_decide_unpack _); vm_compute; reflexivity).
  split; [exact Hv | split].
  - apply (Card_eq_guarded (card "2" "h") (card "2" "h") Hv); reflexivity.
  - apply (Card_eq_guarded (card "2" "h") (card "2" "s") Hv); discriminate.
Defined.

(** C7, as the specification words it, fails: the two of hearts and the two
    of spades differ in suit, and their equality raises instead of being
    false. *)
Lemma Card_eq_other_suit_raises :
  Card_eq (card "2" "h") (card "2" "s")
    = Raise (ValueError "Comparing different cards.") /\
  Card_eq (card "2" "h") (card "2" "s") <> Ok false.
Proof. split; [reflexivity | discriminate]. Qed.

(** ** Construction *)

(** C8. [CARD_VALUE_ORDER] holds 13 symbols and [SUITS] holds 4. [Card_init]
    raises [ValueError] for a suit outside [SUITS] and for a value outside
    [CARD_VALUE_ORDER], and builds the card otherwise; [Hand_init] raises
    [ValueError] for a list whose length is not 5 and builds the hand
    otherwise. *)
Theorem construction_validated :
  size (str_set CARD_VALUE_ORDER) = 13 /\ size (str_set SUITS) = 4 /\
  (forall v s, s ∉ str_set SUITS ->
     Card_init v s = Raise (ValueError "Not a suit.")) /\
  (forall v s, s ∈ str_set SUITS -> v ∉ str_set CARD_VALUE_ORDER ->
     Card_init v s = Raise (ValueError "Not a value.")) /\
  (forall v s, v ∈ str_set CARD_VALUE_ORDER -> s ∈ str_set SUITS ->
     Card_init v s = Ok (mkCard v s)) /\
  (forall cs, length cs <> 5 ->
     Hand_init cs = Raise (ValueError "A hand has 5 cards.")) /\
  (forall cs, length cs = 5 -> Hand_init cs = Ok (mkHand cs)).
Proof.
  split; [vm_compute; reflexivity|]. split; [vm_compute; reflexivity|].
  unfold Card_init, Hand_init. repeat apply conj.
  - intros v s Hs. rewrite (bool_decide_eq_false_2 _ Hs). reflexivity.
  - intros v s Hs Hv.
    rewrite (bool_decide_eq_true_2 _ Hs), (bool_decide_eq_false_2 _ Hv).
    reflexivity.
  - intros v s Hv Hs.
    rewrite (bool_decide_eq_true_2 _ Hs), (bool_decide_eq_true_2 _ Hv).
    reflexivity.
  - intros cs Hlen. apply Nat.eqb_neq in Hlen. rewrite Hlen. reflexivity.
  - intros cs Hlen. apply Nat.eqb_eq in Hlen. rewrite Hlen. reflexivity.
Qed.

Lemma construction_validated_witness :
  Card_init "1" "h" = Raise (ValueError "Not a value.") /\
  Card_init "q" "x" = Raise (ValueError "Not a suit.") /\
  Card_init "q" "h" = Ok (mkCard "q" "h") /\
  Hand_init [card "q" "h"] = Raise (ValueError "A hand has 5 cards.") /\
  Hand_init (cards low_cards) = Ok low_cards.
Proof.
  destruct construction_validated
    as (_ & _ & Hsuit & Hvalue & Hcard & Hshort & Hhand).
  split; [|split; [|split; [|split]]].
  - apply Hvalue; apply (bool_decide_unpack _); vm_compute; reflexivity.
  - apply Hsuit; apply (bool_decide_unpack _); vm_compute; reflexivity.
  - apply Hcard; apply (bool_decide_unpack _); vm_compute; reflexivity.
  - apply Hshort. simpl. lia.
  - apply (Hhand (cards low_cards)). reflexivity.
Defined.

(** ** The comparator inside the search *)

Lemma _max_values_inv (h : Hand) (m : option ascii) :
  _max_values h = Ok m -> m = None.
Proof.
  unfold _max_values. intros H.
  apply bind_Ok in H as [s [_ H]]. apply bind_Ok in H as [c [_ H]].
  congruence.
Qed.

Lemma Hand_cmp_inv (a b : Hand) (z : Z) :
  Hand_cmp a b = Ok z ->
  exists ca cb,
    classify_hand a = Ok ca /\ classify_hand b = Ok cb /\
    ((ca < cb /\ z = 1%Z) \/ (cb < ca /\ z = (-1)%Z) \/
     (ca = cb /\ z = 0%Z)).
Proof.
  unfold Hand_cmp. intros H.
  apply bind_Ok in H as [ca [Ha H]]. apply bind_Ok in H as [cb [Hb H]].
  exists ca, cb. split; [exact Ha | split; [exact Hb|]].
  destruct (Nat.ltb ca cb) eqn:E1.
  { apply Nat.ltb_lt in E1. left. split; [exact E1 | congruence]. }
  destruct (Nat.ltb cb ca) eqn:E2.
  { apply Nat.ltb_lt in E2. right; left. split; [exact E2 | congruence]. }
  apply Nat.ltb_ge in E1, E2. right; right. split; [lia|].
  destruct (Nat.eqb ca cb && Nat.eqb ca 10).
  - apply bind_Ok in H as [m1 [Hm1 H]]. apply bind_Ok in H as [m2 [Hm2 H]].
    apply _max_values_inv in Hm1, Hm2. subst m1 m2.
    rewrite bool_decide_eq_true_2 in H by reflexivity. congruence.
  - destruct (Nat.eqb ca cb); [congruence | discriminate].
Qed.

Lemma Hand_gt_inv (a b : Hand) (better : bool) :
  Hand_gt a b = Ok better ->
  exists ca cb,
    classify_hand a = Ok ca /\ classify_hand b = Ok cb /\
    (if better then ca < cb else cb <= ca).
Proof.
  unfold Hand_gt. intros H. apply bind_Ok in H as [z [Hz H]].
  destruct (Hand_cmp_inv a b z Hz) as (ca & cb & Ha & Hb & Hcase).
  exists ca, cb. split; [exact Ha | split; [exact Hb|]].
  injection H as <-.
  destruct Hcase as [[Hlt ->] | [[Hlt ->] | [Heq ->]]]; simpl; lia.
Qed.

Lemma Hand_gt_Ok (a b : Hand) :
  Hand_valid a -> Hand_valid b -> exists better, Hand_gt a b = Ok better.
Proof.
  intros Ha Hb. unfold Hand_gt, Hand_cmp.
  destruct (classify_hand_range a Ha) as [ca [Hca _]].
  destruct (classify_hand_range b Hb) as [cb [Hcb _]].
  rewrite Hca, Hcb. cbn [bind].
  destruct (Nat.ltb ca cb) eqn:E1; [eexists; reflexivity|].
  destruct (Nat.ltb cb ca) eqn:E2; [eexists; reflexivity|].
  apply Nat.ltb_ge in E1, E2.
  assert (Heq : Nat.eqb ca cb = true) by (apply Nat.eqb_eq; lia).
  rewrite Heq. cbn [andb].
  destruct (Nat.eqb ca 10); [|eexists; reflexivity].
  rewrite (_max_values_None a Ha), (_max_values_None b Hb).
  eexists; reflexivity.
Qed.

(** ** The loop of the search *)

Lemma search_loop_Ok (space : list (result Hand)) :
  forall (winning best : Hand) (cw : nat),
    search_loop winning space = Ok best ->
    classify_hand winning = Ok cw ->
    exists cb,
      classify_hand best = Ok cb /\ cb <= cw /\
      (best = winning \/ (In (Ok best) space /\ cb < cw)).
Proof.
  induction space as [|step space IH]; intros winning best cw Hloop Hcw.
  - injection Hloop as <-. exists cw. split; [exact Hcw|]. split; [lia|].
    left; reflexivity.
  - cbn [search_loop] in Hloop.
    apply bind_Ok in Hloop as [new_hand [-> Hloop]].
    apply bind_Ok in Hloop as [better [Hgt Hloop]].
    destruct (Hand_gt_inv _ _ _ Hgt) as (cn & cw' & Hcn & Hcw' & Hcase).
    assert (cw' = cw) by congruence. subst cw'.
    destruct better.
    + destruct (IH _ _ _ Hloop Hcn) as (cb & Hcb & Hle & Hwhich).
      exists cb. split; [exact Hcb|]. split; [lia|]. right.
      destruct Hwhich as [-> | [Hin Hlt]].
      * split; [left; reflexivity | congruence || lia].
      * split; [right; exact Hin | lia].
    + destruct (IH _ _ _ Hloop Hcw) as (cb & Hcb & Hle & Hwhich).
      exists cb. split; [exact Hcb|]. split; [exact Hle|].
      destruct Hwhich as [-> | [Hin Hlt]]; [left; reflexivity|].
      right. split; [right; exact Hin | exact Hlt].
Qed.

Lemma search_loop_raises (space : list (result Hand)) :
  forall winning : Hand,
    Hand_valid winning ->
    Forall step_ok space ->
    In (Raise hand_size_error) space ->
    search_loop winning space = Raise hand_size_error.
Proof.
  induction space as [|step space IH]; intros winning Hw Hall Hin.
  - destruct Hin.
  - apply Forall_cons in Hall as [Hstep Hall]. cbn [search_loop].
    destruct Hstep as [-> | [h [-> Hh]]]; [reflexivity|].
    destruct Hin as [Hin | Hin]; [discriminate|].
    cbn [bind]. destruct (Hand_gt_Ok h winning Hh Hw) as [better Hb].
    rewrite Hb. cbn [bind].
    apply IH; [destruct better; assumption | exact Hall | exact Hin].
Qed.

Lemma search_loop_returns (space : list (result Hand)) :
  forall winning : Hand,
    Hand_valid winning ->
    Forall (fun step => exists h, step = Ok h /\ Hand_valid h) space ->
    exists best, search_loop winning space = Ok best.
Proof.
  induction space as [|step space IH]; intros winning Hw Hall.
  - exists winning. reflexivity.
  - apply Forall_cons in Hall as [[h [-> Hh]] Hall]. cbn [search_loop bind].
    destruct (Hand_gt_Ok h winning Hh Hw) as [better Hb].
    rewrite Hb. cbn [bind].
    apply IH; [destruct better; assumption | exact Hall].
Qed.

(** ** The result of the search *)

(** C2. When [search] returns on a valid starting hand, the hand it returns
    has a category code no greater than that of the starting hand. It is
    the starting hand itself, or a candidate of the search space whose code
    is strictly lower. *)
Theorem search_never_worse (hand : Hand) (deck : list Card) (best : Hand)
    (Hv : Hand_valid hand) (Hs : search hand deck = Ok best) :
  exists c0 cb,
    classify_hand hand = Ok c0 /\ classify_hand best = Ok cb /\
    cb <= c0 /\
    (best = hand \/ (In (Ok best) (_search_space hand deck) /\ cb < c0)).
Proof.
  destruct (classify_hand_range hand Hv) as [c0 [Hc0 _]].
  destruct (search_loop_Ok _ _ _ _ Hs Hc0) as (cb & Hcb & Hle & Hwhich).
  exists c0, cb. auto.
Qed.

Lemma search_never_worse_witness :
  Hand_valid queens_set /\
  exists best,
    search queens_set royal_deck = Ok best /\
    exists c0 cb,
      classify_hand queens_set = Ok c0 /\ classify_hand best = Ok cb /\
      cb <= c0 /\
      (best = queens_set \/
       (In (Ok best) (_search_space queens_set royal_deck) /\ cb < c0)).
Proof.
  assert (Hv : Hand_valid queens_set)
    by (apply (bool_decide_unpack _); vm_compute; reflexivity).
  split; [exact Hv|].
  eexists. split; [vm_compute; reflexivity|].
  apply (search_never_worse queens_set royal_deck _ Hv).
  vm_compute. reflexivity.
Defined.

(** ** Combinations *)

Lemma length_combinations {A : Type} (pool : list A) :
  forall r, length (combinations pool r) = choose (length pool) r.
Proof.
  induction pool as [|x pool IH]; intros [|r]; cbn [combinations choose length];
    try reflexivity.
  rewrite length_app, length_map, !IH. reflexivity.
Qed.

Lemma combinations_sublist {A : Type} (pool : list A) :
  forall r t,
    In t (combinations pool r) -> t `sublist_of` pool /\ length t = r.
Proof.
  induction pool as [|x pool IH]; intros [|r] t Hin; cbn [combinations] in Hin.
  - destruct Hin as [<- | []]. split; [constructor | reflexivity].
  - destruct Hin.
  - destruct Hin as [<- | []]. split; [apply sublist_nil_l | reflexivity].
  - apply in_app_iff in Hin as [Hin | Hin].
    + apply in_map_iff in Hin as (t' & <- & Hin).
      destruct (IH _ _ Hin) as [Hsub Hlen].
      split; [apply sublist_skip, Hsub | simpl; congruence].
    + destruct (IH _ _ Hin) as [Hsub Hlen].
      split; [apply sublist_cons, Hsub | exact Hlen].
Qed.

Lemma sublist_combinations {A : Type} (t pool : list A) :
  t `sublist_of` pool -> In t (combinations pool (length t)).
Proof.
  induction 1 as [|x t pool _ IH|x t pool _ IH].
  - left; reflexivity.
  - cbn [length combinations]. apply in_app_iff. left.
    apply in_map, IH.
  - destruct t as [|y t]; cbn [length combinations].
    + left; reflexivity.
    + apply in_app_iff. right. exact IH.
Qed.

(** ** Sets of cards *)

Lemma size_list_to_set_le (l : list Card) :
  size (list_to_set l : gset Card) <= length l.
Proof.
  induction l as [|x l IH]; cbn [length].
  - rewrite list_to_set_nil, size_empty. lia.
  - rewrite list_to_set_cons, size_union_alt, size_singleton.
    assert (size (list_to_set l ∖ {[x]} : gset Card)
            <= size (list_to_set l : gset Card))
      by (apply subseteq_size, subseteq_difference_l; reflexivity).
    lia.
Qed.

Lemma size_list_to_set_dup (l : list Card) :
  ~ NoDup l -> size (list_to_set l : gset Card) < length l.
Proof.
  induction l as [|x l IH]; intros Hdup.
  - destruct Hdup. constructor.
  - cbn [length]. rewrite list_to_set_cons.
    destruct (decide (x ∈ l)) as [Hin | Hout].
    + assert (Heq : ({[x]} ∪ list_to_set l : gset Card) = list_to_set l).
      { apply subseteq_union_1_L, singleton_subseteq_l.
        apply elem_of_list_to_set, Hin. }
      rewrite Heq. pose proof (size_list_to_set_le l). lia.
    + assert (Hl : ~ NoDup l).
      { intros Hl. apply Hdup. apply NoDup_cons. split; assumption. }
      rewrite size_union_alt, size_singleton.
      assert (size (list_to_set l ∖ {[x]} : gset Card)
              <= size (list_to_set l : gset Card))
        by (apply subseteq_size, subseteq_difference_l; reflexivity).
      specialize (IH Hl). lia.
Qed.

Lemma has_duplicate_not_NoDup (h : Hand) :
  has_duplicate h -> ~ NoDup (cards h).
Proof.
  intros (i & j & c1 & c2 & Hij & Hi & Hj & Hval & Hsuit) Hnd.
  assert (c1 = c2) by (destruct c1, c2; simpl in *; congruence). subst c2.
  apply Hij. exact (proj1 (NoDup_alt (cards h)) Hnd i j c1 Hi Hj).
Qed.

Lemma length_elements (s : gset Card) : length (elements s) = size s.
Proof. reflexivity. Qed.

Lemma Hand_init_elements (s : gset Card) :
  size s <> 5 -> Hand_init (elements s) = Raise hand_size_error.
Proof.
  intros Hsize. unfold Hand_init.
  assert (Hneq : Nat.eqb (length (elements s)) 5 = false)
    by (apply Nat.eqb_neq; exact Hsize).
  rewrite Hneq. reflexivity.
Qed.

(** The tuples that [combinations] draws from a set are its subsets. *)
Lemma combinations_subset (s : gset Card) (r : nat) (t : list Card) :
  In t (combinations (elements s) r) ->
  (list_to_set t : gset Card) ⊆ s /\ size (list_to_set t : gset Card) = r.
Proof.
  intros Hin. apply combinations_sublist in Hin as [Hsub Hlen]. split.
  - intros x Hx. apply elem_of_list_to_set in Hx.
    apply elem_of_elements. eapply elem_of_sublist; eassumption.
  - rewrite size_list_to_set; [exact Hlen|].
    exact (sublist_NoDup _ _ (NoDup_elements s) Hsub).
Qed.

Lemma subset_combinations (s sub : gset Card) :
  sub ⊆ s ->
  exists t, In t (combinations (elements s) (size sub)) /\
            list_to_set t = sub.
Proof.
  intros Hsub.
  set (t := filter (fun x => x ∈ sub) (elements s)).
  assert (Hset : (list_to_set t : gset Card) = sub).
  { apply set_eq. intros x. unfold t.
    rewrite elem_of_list_to_set, list_elem_of_filter, elem_of_elements.
    split; [intros [Hx _]; exact Hx | intros Hx; split; [exact Hx|]].
    apply Hsub, Hx. }
  assert (Hlen : length t = size sub).
  { rewrite <- Hset. symmetry. apply size_list_to_set.
    apply NoDup_filter, NoDup_elements. }
  exists t. split; [|exact Hset].
  rewrite <- Hlen. apply sublist_combinations, sublist_filter.
Qed.

(** ** The search space *)

Lemma _search_space_In (hand : Hand) (deck : list Card) (step : result Hand) :
  In step (_search_space hand deck) <->
  exists num t,
    1 <= num <= 5 /\
    In t (combinations (elements (list_to_set (cards hand) : gset Card)) num)
    /\ step = candidate (list_to_set (cards hand)) deck num t.
Proof.
  unfold _search_space. rewrite in_flat_map. split.
  - intros (num & Hnum & Hin). apply in_seq in Hnum.
    apply in_map_iff in Hin as (t & <- & Hin).
    exists num, t. split; [lia | split; [exact Hin | reflexivity]].
  - intros (num & t & Hnum & Hin & ->). exists num. split.
    + apply in_seq. lia.
    + apply in_map, Hin.
Qed.

Lemma choose_total (n : nat) :
  n <= 5 ->
  choose n 1 + choose n 2 + choose n 3 + choose n 4 + choose n 5 <= 31.
Proof.
  intros Hn.
  do 6 (destruct n as [|n]; [vm_compute; lia|]). lia.
Qed.

Lemma length_search_space (hand : Hand) (deck : list Card) :
  length (cards hand) = 5 -> length (_search_space hand deck) <= 31.
Proof.
  intros Hlen. unfold _search_space. cbn [seq flat_map].
  rewrite !length_app, !length_map, !length_combinations. cbn [length].
  pose proof (size_list_to_set_le (cards hand)) as Hsize.
  unfold size, set_size in Hsize. cbn [compose] in Hsize.
  pose proof (choose_total
                (length (elements (list_to_set (cards hand) : gset Card)))).
  lia.
Qed.

Lemma candidate_size (s : gset Card) (deck : list Card) (num : nat)
    (t : list Card) :
  In t (combinations (elements s) num) ->
  num <= size s /\
  size ((s ∖ list_to_set t) ∪ list_to_set (take num deck) : gset Card)
    <= size s - num + min num (length deck).
Proof.
  intros Hin. apply combinations_subset in Hin as [Hsub Hsize].
  split; [rewrite <- Hsize; apply subseteq_size, Hsub|].
  rewrite size_union_alt, (size_difference _ _ Hsub), Hsize.
  assert (size (list_to_set (take num deck) ∖ (s ∖ list_to_set t) : gset Card)
          <= size (list_to_set (take num deck) : gset Card))
    by (apply subseteq_size, subseteq_difference_l; reflexivity).
  pose proof (size_list_to_set_le (take num deck)) as Htake.
  rewrite length_take in Htake. lia.
Qed.

Lemma candidate_step_ok (s : gset Card) (deck : list Card) (num : nat)
    (t : list Card) :
  (forall c, c ∈ s -> Card_valid c) -> Forall Card_valid deck ->
  step_ok (candidate s deck num t).
Proof.
  intros Hs Hdeck. unfold candidate, Hand_init.
  destruct (Nat.eqb _ 5) eqn:E; cbn [negb]; [right | left; reflexivity].
  eexists. split; [reflexivity|]. apply Nat.eqb_eq in E.
  split; [exact E|]. cbn [cards]. apply Forall_forall. intros c Hc.
  apply elem_of_elements, elem_of_union in Hc as [Hc | Hc].
  - apply elem_of_difference in Hc as [Hc _]. apply Hs, Hc.
  - apply elem_of_list_to_set in Hc. apply subseteq_take in Hc.
    rewrite Forall_forall in Hdeck. apply Hdeck, Hc.
Qed.

Lemma _search_space_step_ok (hand : Hand) (deck : list Card) :
  Forall Card_valid (cards hand) -> Forall Card_valid deck ->
  Forall step_ok (_search_space hand deck).
Proof.
  intros Hhand Hdeck. apply Forall_forall. intros step Hin.
  apply list_elem_of_In, _search_space_In in Hin as (num & t & _ & _ & ->).
  apply candidate_step_ok; [|exact Hdeck].
  intros c Hc. apply elem_of_list_to_set in Hc.
  rewrite Forall_forall in Hhand. apply Hhand, Hc.
Qed.

(** When the hand's cards are pairwise distinct and the first five deck
    cards are distinct from each other and from the hand, every candidate
    has five cards and [search] returns. *)
Lemma search_returns (hand : Hand) (deck : list Card) :
  Hand_valid hand -> NoDup (cards hand) ->
  Forall Card_valid deck -> 5 <= length deck -> NoDup (take 5 deck) ->
  (forall c, c ∈ take 5 deck -> c ∉ cards hand) ->
  exists best, search hand deck = Ok best.
Proof.
  intros [Hlen Hall] Hnd Hdeck Hlong Hnd5 Hfresh.
  apply search_loop_returns; [split; assumption|].
  apply Forall_forall. intros step Hin.
  apply list_elem_of_In in Hin.
  pose proof Hin as Hstep.
  apply _search_space_In in Hin as (num & t & Hnum & Hin & ->).
  destruct (candidate_step_ok (list_to_set (cards hand)) deck num t)
    as [Hraise | Hok]; [| exact Hdeck | | exact Hok].
  { intros c Hc. apply elem_of_list_to_set in Hc.
    rewrite Forall_forall in Hall. apply Hall, Hc. }
  exfalso. revert Hraise. unfold candidate, Hand_init. cbv zeta.
  destruct (combinations_subset _ _ _ Hin) as [Hsub Hsize].
  assert (Htake : take num deck = take num (take 5 deck)).
  { rewrite take_take. f_equal. lia. }
  assert (Hfive : length (elements
            ((list_to_set (cards hand) ∖ list_to_set t)
             ∪ list_to_set (take num deck) : gset Card)) = 5).
  { rewrite length_elements, size_union.
    - rewrite (size_difference _ _ Hsub), Hsize.
      rewrite (size_list_to_set (cards hand)) by exact Hnd.
      rewrite size_list_to_set.
      + rewrite length_take. lia.
      + rewrite Htake. apply (sublist_NoDup _ _ Hnd5), sublist_take.
    - apply disjoint_difference_l2, elem_of_disjoint. intros c Hc Hd.
      apply elem_of_list_to_set in Hc, Hd.
      apply (Hfresh c); [|exact Hc].
      rewrite Htake in Hd. eapply elem_of_sublist; [exact Hd|].
      apply sublist_take. }
  rewrite Hfive. discriminate.
Qed.

(** C3. For a hand of 5 cards every step of the search space is, for some
    [k] from 1 to 5 and some [k]-element subset [T] of the set of the hand's
    cards, the candidate built from the cards outside [T] and the first [k]
    cards of the deck, and there are at most 31 steps. When no step raises,
    so that the generator runs through, the search space holds the candidate
    of every such [k] and [T]; the [k] leading deck cards do not depend on
    [T]. *)
Theorem search_space_enumerates (hand : Hand) (deck : list Card)
    (Hlen : length (cards hand) = 5) :
  (runs_through (_search_space hand deck) ->
   forall (k : nat) (T : gset Card),
     1 <= k <= 5 -> T ⊆ hand_set hand -> size T = k ->
     exists h,
       Hand_init
         (elements ((hand_set hand ∖ T) ∪ list_to_set (take k deck))) = Ok h
       /\ In (Ok h) (_search_space hand deck)) /\
  (forall step : result Hand,
     In step (_search_space hand deck) ->
     exists (k : nat) (T : gset Card),
       1 <= k <= 5 /\ T ⊆ hand_set hand /\ size T = k /\
       step = Hand_init
                (elements ((hand_set hand ∖ T) ∪ list_to_set (take k deck))))
  /\ length (_search_space hand deck) <= 31.
Proof.
  split; [|split].
  - intros Hrun k T Hk Hsub Hsize.
    assert (Hin : In (Hand_init
                        (elements ((hand_set hand ∖ T)
                                   ∪ list_to_set (take k deck))))
                     (_search_space hand deck)).
    { apply _search_space_In.
      destruct (subset_combinations _ _ Hsub) as (t & Hin & Ht).
      exists k, t. split; [exact Hk|]. rewrite Hsize in Hin.
      split; [exact Hin|]. unfold candidate. rewrite Ht. reflexivity. }
    unfold runs_through in Hrun. rewrite Forall_forall in Hrun.
    destruct (Hrun _ (proj2 (list_elem_of_In _ _) Hin)) as [h Hh].
    exists h. split; [exact Hh|]. rewrite <- Hh. exact Hin.
  - intros step Hin.
    apply _search_space_In in Hin as (num & t & Hnum & Hin & ->).
    destruct (combinations_subset _ _ _ Hin) as [Hsub Hsize].
    exists num, (list_to_set t).
    split; [exact Hnum | split; [exact Hsub | split; [exact Hsize|]]].
    reflexivity.
  - apply length_search_space, Hlen.
Qed.

Lemma search_space_enumerates_witness :
  length (cards queens_set) = 5 /\
  runs_through (_search_space queens_set royal_deck) /\
  (exists h,
     Hand_init
       (elements ((hand_set queens_set ∖ three_queens)
                  ∪ list_to_set (take 3 royal_deck))) = Ok h /\
     In (Ok h) (_search_space queens_set royal_deck)) /\
  length (_search_space queens_set royal_deck) <= 31.
Proof.
  assert (Hlen : length (cards queens_set) = 5) by reflexivity.
  assert (Hrun : runs_through (_search_space queens_set royal_deck)).
  { unfold runs_through. vm_compute.
    repeat (constructor; [eexists; reflexivity|]). constructor. }
  destruct (search_space_enumerates queens_set royal_deck Hlen)
    as (Hall & _ & Hcount).
  split; [exact Hlen | split; [exact Hrun | split; [|exact Hcount]]].
  apply (Hall Hrun).
  - lia.
  - apply (bool_decide_unpack _). vm_compute. reflexivity.
  - vm_compute. reflexivity.
Defined.

(** ** Searches that raise *)

(** C9. For a valid hand of pairwise distinct cards and a deck of fewer
    than 5 valid cards, the candidate that discards the whole hand is built
    from the deck's cards alone and is rejected by [Hand_init]; it is a step
    of the search space, and [search] raises the hand-size error. *)
Theorem search_short_deck (hand : Hand) (deck : list Card)
    (Hv : Hand_valid hand) (Hnd : NoDup (cards hand))
    (Hdeck : Forall Card_valid deck) (Hshort : length deck < 5) :
  candidate (hand_set hand) deck 5 (elements (hand_set hand))
    = Raise hand_size_error /\
  In (Raise hand_size_error) (_search_space hand deck) /\
  search hand deck = Raise hand_size_error.
Proof.
  destruct Hv as [Hlen Hall].
  assert (Hsize : size (hand_set hand) = 5).
  { unfold hand_set. rewrite size_list_to_set; assumption. }
  assert (Hin : In (elements (hand_set hand))
                   (combinations (elements (hand_set hand)) 5)).
  { pose proof (sublist_combinations (elements (hand_set hand))
                  (elements (hand_set hand))) as Hself.
    rewrite length_elements, Hsize in Hself. apply Hself. reflexivity. }
  assert (Hraise : candidate (hand_set hand) deck 5 (elements (hand_set hand))
                   = Raise hand_size_error).
  { unfold candidate. cbv zeta. apply Hand_init_elements.
    destruct (candidate_size _ deck 5 _ Hin) as [_ Hc]. lia. }
  assert (Hstep : In (Raise hand_size_error) (_search_space hand deck)).
  { apply _search_space_In. exists 5, (elements (hand_set hand)).
    split; [lia | split; [exact Hin | symmetry; exact Hraise]]. }
  split; [exact Hraise | split; [exact Hstep|]].
  apply search_loop_raises.
  - split; assumption.
  - apply _search_space_step_ok; assumption.
  - exact Hstep.
Qed.

Lemma search_short_deck_witness :
  Hand_valid low_cards /\ NoDup (cards low_cards) /\
  Forall Card_valid short_deck /\ length short_deck < 5 /\
  search low_cards short_deck = Raise hand_size_error.
Proof.
  assert (Hv : Hand_valid low_cards)
    by (apply (bool_decide_unpack _); vm_compute; reflexivity).
  assert (Hnd : NoDup (cards low_cards))
    by (apply (bool_decide_unpack _); vm_compute; reflexivity).
  assert (Hdeck : Forall Card_valid short_deck)
    by (apply (bool_decide_unpack _); vm_compute; reflexivity).
  assert (Hshort : length short_deck < 5) by (simpl; lia).
  split; [exact Hv | split; [exact Hnd | split; [exact Hdeck|]]].
  split; [exact Hshort|].
  apply (search_short_deck low_cards short_deck Hv Hnd Hdeck Hshort).
Defined.

(** C10. For a hand of 5 cards two of which agree in rank and suit, the set
    of the hand's cards has fewer than 5 elements; every step of the search
    space, the first one included, is the hand-size error, and [search]
    raises it. *)
Theorem search_duplicate_cards (hand : Hand) (deck : list Card)
    (Hlen : length (cards hand) = 5) (Hdup : has_duplicate hand) :
  size (hand_set hand) < 5 /\
  (exists rest, _search_space hand deck = Raise hand_size_error :: rest) /\
  Forall (fun step => step = Raise hand_size_error)
         (_search_space hand deck) /\
  search hand deck = Raise hand_size_error.
Proof.
  assert (Hsize : size (hand_set hand) < 5).
  { rewrite <- Hlen. apply size_list_to_set_dup, has_duplicate_not_NoDup, Hdup. }
  assert (Hall : Forall (fun step => step = Raise hand_size_error)
                        (_search_space hand deck)).
  { apply Forall_forall. intros step Hin.
    apply list_elem_of_In, _search_space_In in Hin as (num & t & _ & Hin & ->).
    unfold candidate. cbv zeta. apply Hand_init_elements.
    destruct (candidate_size _ deck num _ Hin) as [Hnum Hc].
    unfold hand_set in Hsize. lia. }
  assert (Hfirst : exists rest,
             _search_space hand deck = Raise hand_size_error :: rest).
  { destruct (_search_space hand deck) as [|step rest] eqn:E.
    - exfalso.
      assert (Hin : In (candidate (hand_set hand) deck 1
                          (take 1 (elements (hand_set hand))))
                       (_search_space hand deck)).
      { apply _search_space_In. eexists 1, _.
        split; [lia | split; [|reflexivity]].
        assert (Hne : length (take 1 (elements (hand_set hand))) = 1).
        { rewrite length_take.
          assert (size (hand_set hand) <> 0).
          { destruct (cards hand) as [|c l] eqn:Ec; [discriminate|].
            intros H0. apply size_empty_inv in H0.
            apply (not_elem_of_empty (C := gset Card) c). rewrite <- H0.
            unfold hand_set. rewrite Ec. apply elem_of_list_to_set.
            apply list_elem_of_here. }
          rewrite length_elements. lia. }
        rewrite <- Hne at 2. apply sublist_combinations, sublist_take. }
      rewrite E in Hin. destruct Hin.
    - apply Forall_cons in Hall as [-> _]. exists rest. reflexivity. }
  split; [exact Hsize | split; [exact Hfirst | split; [exact Hall|]]].
  unfold search. destruct Hfirst as [rest ->]. reflexivity.
Qed.

Lemma search_duplicate_cards_witness :
  length (cards twin_twos) = 5 /\ has_duplicate twin_twos /\
  search twin_twos royal_deck = Raise hand_size_error.
Proof.
  assert (Hlen : length (cards twin_twos) = 5) by reflexivity.
  assert (Hdup : has_duplicate twin_twos).
  { exists 0, 1, (card "2" "h"), (card "2" "h").
    split; [lia | repeat (split; [reflexivity|])]. reflexivity. }
  split; [exact Hlen | split; [exact Hdup|]].
  apply (search_duplicate_cards twin_twos royal_deck Hlen Hdup).
Defined.

(** * Further properties of the code *)

(** ** The sort behind [sorted] *)

Lemma insert_by_key_Permutation {A : Type} (x : nat * A) (l : list (nat * A)) :
  insert_by_key x l ≡ₚ x :: l.
Proof.
  induction l as [|y l IH]; cbn [insert_by_key]; [reflexivity|].
  destruct (Nat.leb (fst x) (fst y)); [reflexivity|].
  rewrite IH. apply Permutation_swap.
Qed.

Lemma sort_by_key_Permutation {A : Type} (l : list (nat * A)) :
  sort_by_key l ≡ₚ l.
Proof.
  unfold sort_by_key. induction l as [|x l IH]; cbn [foldr]; [reflexivity|].
  rewrite insert_by_key_Permutation, IH. reflexivity.
Qed.

Lemma insert_by_key_sorted {A : Type} (x : nat * A) (l : list (nat * A)) :
  StronglySorted by_key l -> StronglySorted by_key (insert_by_key x l).
Proof.
  induction 1 as [|y l Hl IH Hy]; cbn [insert_by_key].
  - repeat constructor.
  - destruct (Nat.leb (fst x) (fst y)) eqn:E.
    + apply Nat.leb_le in E. constructor; [constructor; assumption|].
      constructor; [exact E|].
      eapply Forall_impl; [exact Hy|]. unfold by_key. intros z Hz. lia.
    + apply Nat.leb_gt in E. constructor; [exact IH|].
      rewrite insert_by_key_Permutation. constructor; [|exact Hy].
      unfold by_key. lia.
Qed.

Lemma sort_by_key_sorted {A : Type} (l : list (nat * A)) :
  StronglySorted by_key (sort_by_key l).
Proof.
  unfold sort_by_key. induction l as [|x l IH]; cbn [foldr].
  - constructor.
  - apply insert_by_key_sorted, IH.
Qed.

Lemma StronglySorted_map {A B : Type} (R : relation A) (S : relation B)
    (f : A -> B) (l : list A) :
  (forall x y, x ∈ l -> y ∈ l -> R x y -> S (f x) (f y)) ->
  StronglySorted R l -> StronglySorted S (map f l).
Proof.
  intros Hf Hl. induction Hl as [|x l Hl IH Hx]; cbn [map]; constructor.
  - apply IH. intros a b Ha Hb. apply Hf; apply list_elem_of_further; assumption.
  - apply Forall_map, Forall_forall. intros y Hy.
    rewrite Forall_forall in Hx.
    apply Hf; [apply list_elem_of_here | apply list_elem_of_further, Hy |].
    apply Hx, Hy.
Qed.

(** Two sorted arrangements of the same elements agree when the order tells
    the elements apart. *)
Lemma sorted_Permutation_eq {A : Type} (R : relation A) (l1 : list A) :
  forall l2,
    (forall x y, x ∈ l1 -> y ∈ l1 -> R x y -> R y x -> x = y) ->
    StronglySorted R l1 -> StronglySorted R l2 -> l1 ≡ₚ l2 -> l1 = l2.
Proof.
  induction l1 as [|x l1 IH]; intros l2 Hanti H1 H2 Hperm.
  - apply Permutation_nil_l in Hperm. congruence.
  - destruct l2 as [|y l2]; [apply Permutation_nil_r in Hperm; discriminate|].
    apply StronglySorted_inv in H1 as [H1 Hx].
    apply StronglySorted_inv in H2 as [H2 Hy].
    rewrite Forall_forall in Hx, Hy.
    assert (Hxy : x = y).
    { assert (Hin_x : x ∈ y :: l2) by (rewrite <- Hperm; apply list_elem_of_here).
      assert (Hin_y : y ∈ x :: l1) by (rewrite Hperm; apply list_elem_of_here).
      apply elem_of_cons in Hin_x as [Heq | Hin_x]; [exact Heq|].
      apply elem_of_cons in Hin_y as [Heq | Hin_y]; [congruence|].
      apply Hanti;
        [apply list_elem_of_here | apply list_elem_of_further, Hin_y | |].
      - apply Hx, Hin_y.
      - apply Hy, Hin_x. }
    subst y. f_equal. apply IH; [|assumption..|].
    + intros a b Ha Hb. apply Hanti; apply list_elem_of_further; assumption.
    + eapply Permutation_cons_inv; exact Hperm.
Qed.

Lemma mapM_map {A B : Type} (f : A -> result B) (g : A -> B) (l : list A) :
  Forall (fun x => f x = Ok (g x)) l -> mapM f l = Ok (map g l).
Proof.
  induction 1 as [|x l Hx _ IH]; cbn [mapM map]; [reflexivity|].
  rewrite Hx, IH. reflexivity.
Qed.

Lemma combine_map_l {A B : Type} (g : A -> B) (l : list A) :
  combine (map g l) l = map (fun x => (g x, x)) l.
Proof. induction l as [|x l IH]; cbn [map combine]; congruence. Qed.

Lemma sorted_with_key_map {A : Type} (key : A -> result nat) (g : A -> nat)
    (l : list A) :
  Forall (fun x => key x = Ok (g x)) l ->
  sorted_with_key key l
    = Ok (map snd (sort_by_key (map (fun x => (g x, x)) l))).
Proof.
  intros Hall. unfold sorted_with_key.
  rewrite (mapM_map key g l Hall). cbn [bind]. rewrite combine_map_l.
  reflexivity.
Qed.

(** ** Ranks *)

Lemma str_index_rank_of (v : ascii) :
  v ∈ str_set CARD_VALUE_ORDER ->
  str_index CARD_VALUE_ORDER v = Ok (rank_of v).
Proof.
  intros Hv. unfold rank_of.
  destruct (str_index_Ok _ _ Hv) as [i Hi]. rewrite Hi. reflexivity.
Qed.

Lemma str_index_inj (s : string) (v w : ascii) (i : nat) :
  str_index s v = Ok i -> str_index s w = Ok i -> v = w.
Proof.
  revert i. induction s as [|d s IH]; intros i Hv Hw; cbn [str_index] in *.
  - discriminate.
  - destruct (Ascii.eqb d v) eqn:Ev, (Ascii.eqb d w) eqn:Ew.
    + apply Ascii.eqb_eq in Ev, Ew. congruence.
    + apply bind_Ok in Hw as (j & _ & Hj). congruence.
    + apply bind_Ok in Hv as (j & _ & Hj). congruence.
    + apply bind_Ok in Hv as (j & Hv & Hj). apply bind_Ok in Hw as (k & Hw & Hk).
      apply (IH j); congruence.
Qed.

Lemma rank_of_inj (v w : ascii) :
  v ∈ str_set CARD_VALUE_ORDER -> w ∈ str_set CARD_VALUE_ORDER ->
  rank_of v = rank_of w -> v = w.
Proof.
  intros Hv Hw Heq.
  apply str_index_rank_of in Hv, Hw. rewrite Heq in Hv.
  exact (str_index_inj _ _ _ _ Hv Hw).
Qed.

Lemma values_valid (h : Hand) :
  Forall Card_valid (cards h) ->
  Forall (fun v => v ∈ str_set CARD_VALUE_ORDER) (map value (cards h)).
Proof.
  intros Hall. apply Forall_map. eapply Forall_impl; [exact Hall|].
  intros c [Hv _]. exact Hv.
Qed.

Lemma sorted_ranks (vs : list ascii) :
  Forall (fun v => v ∈ str_set CARD_VALUE_ORDER) vs ->
  exists sorted,
    sorted_with_key (str_index CARD_VALUE_ORDER) vs = Ok sorted /\
    sorted ≡ₚ vs /\ StronglySorted by_rank sorted.
Proof.
  intros Hall.
  rewrite (sorted_with_key_map _ rank_of vs)
    by (eapply Forall_impl; [exact Hall | apply str_index_rank_of]).
  eexists. split; [reflexivity|]. split.
  - rewrite sort_by_key_Permutation, map_map. cbn [snd]. rewrite map_id.
    reflexivity.
  - apply (StronglySorted_map by_key); [|apply sort_by_key_sorted].
    intros p q Hp Hq. rewrite sort_by_key_Permutation in Hp, Hq.
    apply list_elem_of_fmap in Hp as (a & -> & _).
    apply list_elem_of_fmap in Hq as (b & -> & _).
    unfold by_key, by_rank. cbn [fst snd]. auto.
Qed.

(** X1. On a hand of valid cards [_sort_by_value] returns the ranks of the
    hand, each as often as the hand holds it, in nondecreasing order of
    their positions in [CARD_VALUE_ORDER]. *)
Theorem _sort_by_value_sorted (h : Hand)
    (Hall : Forall Card_valid (cards h)) :
  exists vs,
    _sort_by_value h = Ok (str_join vs) /\
    vs ≡ₚ map value (cards h) /\ StronglySorted by_rank vs.
Proof.
  destruct (sorted_ranks _ (values_valid h Hall)) as (vs & Hvs & Hperm & Hs).
  exists vs. unfold _sort_by_value. rewrite Hvs. auto.
Qed.

Lemma _sort_by_value_sorted_witness :
  Forall Card_valid (cards low_cards) /\
  exists vs,
    _sort_by_value low_cards = Ok (str_join vs) /\
    vs ≡ₚ map value (cards low_cards) /\ StronglySorted by_rank vs.
Proof.
  assert (Hall : Forall Card_valid (cards low_cards))
    by (apply (bool_decide_unpack _); vm_compute; reflexivity).
  split; [exact Hall|].
  exact (_sort_by_value_sorted low_cards Hall).
Defined.

(** ** The count table *)

Lemma count_values_fold (vs : list ascii) :
  count_values vs = foldl count_step ∅ vs.
Proof. reflexivity. Qed.

Lemma count_step_lookup (m : gmap ascii nat) (x v : ascii) :
  default 0 (count_step m x !! v)
    = default 0 (m !! v) + (if decide (x = v) then 1 else 0).
Proof.
  unfold count_step. destruct (decide (x = v)) as [-> | Hne].
  - rewrite lookup_insert_eq. reflexivity.
  - rewrite lookup_insert_ne by exact Hne. lia.
Qed.

Lemma count_fold_lookup (vs : list ascii) :
  forall (m : gmap ascii nat) (v : ascii),
    default 0 (foldl count_step m vs !! v)
      = default 0 (m !! v) + length (filter (fun x => x = v) vs).
Proof.
  induction vs as [|x vs IH]; intros m v; cbn [foldl].
  - cbn. lia.
  - rewrite IH, count_step_lookup, filter_cons.
    destruct (decide (x = v)); cbn [length]; lia.
Qed.

Lemma count_fold_positive (vs : list ascii) :
  forall m : gmap ascii nat,
    (forall v n, m !! v = Some n -> 0 < n) ->
    forall v n, foldl count_step m vs !! v = Some n -> 0 < n.
Proof.
  induction vs as [|x vs IH]; intros m Hm v n; cbn [foldl]; [apply Hm|].
  apply IH. intros w k. unfold count_step.
  destruct (decide (x = w)) as [-> | Hne].
  - rewrite lookup_insert_eq. intros [= <-]. lia.
  - rewrite lookup_insert_ne by exact Hne. apply Hm.
Qed.

Lemma count_values_lookup (vs : list ascii) (v : ascii) (n : nat) :
  count_values vs !! v = Some n <->
  0 < n /\ n = length (filter (fun x => x = v) vs).
Proof.
  rewrite count_values_fold.
  pose proof (count_fold_lookup vs ∅ v) as Hd.
  rewrite lookup_empty in Hd. cbv [from_option id] in Hd.
  split.
  - intros Hn. split.
    + eapply (count_fold_positive vs ∅); [|exact Hn].
      intros w k. rewrite lookup_empty. discriminate.
    + rewrite Hn in Hd. cbv [from_option id] in Hd. lia.
  - intros [Hpos ->].
    destruct (foldl count_step ∅ vs !! v) as [k|]; cbv [from_option id] in Hd.
    + f_equal. lia.
    + lia.
Qed.

Lemma count_values_Permutation (vs ws : list ascii) :
  vs ≡ₚ ws -> count_values vs = count_values ws.
Proof.
  intros Hperm. apply map_eq. intros v. apply option_eq. intros n.
  rewrite !count_values_lookup, Hperm. reflexivity.
Qed.

Lemma filter_value (cs : list Card) (v : ascii) :
  length (filter (fun x => x = v) (map value cs))
    = length (filter (fun c => value c = v) cs).
Proof.
  induction cs as [|c cs IH]; [reflexivity|].
  cbn [map]. rewrite !filter_cons.
  destruct (decide (value c = v)); cbn [length]; congruence.
Qed.

Lemma count_step_total (m : gmap ascii nat) (x : ascii) :
  count_total (count_step m x) = S (count_total m).
Proof.
  unfold count_total, count_step.
  destruct (m !! x) as [n|] eqn:E; cbv [from_option id].
  - rewrite <- insert_delete_eq.
    rewrite map_to_list_insert by apply lookup_delete_eq.
    rewrite <- (map_to_list_delete m x n E). cbn. lia.
  - rewrite map_to_list_insert by exact E. cbn. lia.
Qed.

Lemma count_fold_total (vs : list ascii) :
  forall m : gmap ascii nat,
    count_total (foldl count_step m vs) = count_total m + length vs.
Proof.
  induction vs as [|x vs IH]; intros m; cbn [foldl length]; [lia|].
  rewrite IH, count_step_total. lia.
Qed.

Lemma sorted_nat_Permutation (l : list nat) : sorted_nat l ≡ₚ l.
Proof.
  unfold sorted_nat. rewrite sort_by_key_Permutation, map_map. cbn [snd].
  rewrite map_id. reflexivity.
Qed.

Lemma sorted_nat_sorted (l : list nat) : StronglySorted le (sorted_nat l).
Proof.
  unfold sorted_nat.
  apply (StronglySorted_map by_key); [|apply sort_by_key_sorted].
  intros p q Hp Hq. rewrite sort_by_key_Permutation in Hp, Hq.
  apply list_elem_of_fmap in Hp as (a & -> & _).
  apply list_elem_of_fmap in Hq as (b & -> & _).
  unfold by_key. cbn [fst snd]. auto.
Qed.

Lemma elem_of_sorted_values (count : gmap ascii nat) (n : nat) :
  n ∈ sorted_values count <-> exists v, count !! v = Some n.
Proof.
  unfold sorted_values. rewrite sorted_nat_Permutation. split.
  - intros Hn. apply list_elem_of_fmap in Hn as ([v k] & -> & Hin).
    exists v. apply elem_of_map_to_list in Hin. exact Hin.
  - intros [v Hv]. apply list_elem_of_fmap. exists (v, n).
    split; [reflexivity|]. apply elem_of_map_to_list, Hv.
Qed.

Lemma _count_lookup_held (h : Hand) (v : ascii) (n : nat) :
  _count h !! v = Some n <-> 0 < n /\ n = held h v.
Proof.
  rewrite _count_values, count_values_lookup.
  unfold held. rewrite filter_value. reflexivity.
Qed.

Lemma _count_total (h : Hand) : count_total (_count h) = length (cards h).
Proof.
  rewrite _count_values, count_values_fold, count_fold_total.
  unfold count_total. rewrite map_to_list_empty, length_map. reflexivity.
Qed.

Lemma counts_sum (h : Hand) :
  sum_list (sorted_values (_count h)) = length (cards h).
Proof.
  unfold sorted_values. rewrite sorted_nat_Permutation. apply _count_total.
Qed.

Lemma counts_held (h : Hand) (n : nat) :
  n ∈ sorted_values (_count h) <-> 0 < n /\ exists v, held h v = n.
Proof.
  rewrite elem_of_sorted_values. split.
  - intros [v Hv]. apply _count_lookup_held in Hv as [Hpos ->]. eauto.
  - intros [Hpos [v <-]]. exists v. apply _count_lookup_held. auto.
Qed.

Lemma held_positive (h : Hand) (v : ascii) :
  0 < held h v <-> v ∈ map value (cards h).
Proof.
  unfold held. induction (cards h) as [|c cs IH]; cbn [map].
  - cbn. rewrite elem_of_nil. lia.
  - rewrite filter_cons, elem_of_cons.
    destruct (decide (value c = v)) as [Heq | Hne]; cbn [length].
    + split; [auto | lia].
    + rewrite IH. split; [auto|]. intros [Heq | Hin]; [congruence | exact Hin].
Qed.

Lemma count_entries_held (h : Hand) :
  map_to_list (_count h)
    ≡ₚ map (fun v => (v, held h v)) (remove_dups (map value (cards h))).
Proof.
  apply NoDup_Permutation.
  - apply NoDup_map_to_list.
  - apply (NoDup_fmap_2_strong (fun v => (v, held h v))).
    + intros x y _ _ [= Hxy _]. exact Hxy.
    + apply NoDup_remove_dups.
  - intros [v n].
    rewrite elem_of_map_to_list, _count_lookup_held.
    change (map (fun v0 => (v0, held h v0)) ?l)
      with ((fun v0 => (v0, held h v0)) <$> l).
    rewrite list_elem_of_fmap. split.
    + intros [Hpos ->]. exists v. split; [reflexivity|].
      apply elem_of_remove_dups, held_positive, Hpos.
    + intros (w & [= -> ->] & Hin). split; [|reflexivity].
      apply held_positive, elem_of_remove_dups, Hin.
Qed.

Lemma map_snd_decorated {A B : Type} (f : A -> B) (l : list A) :
  map snd (map (fun v => (v, f v)) l) = map f l.
Proof. induction l as [|x l IH]; cbn [map snd]; congruence. Qed.

Lemma sorted_values_held (h : Hand) :
  sorted_values (_count h)
    ≡ₚ map (held h) (remove_dups (map value (cards h))).
Proof.
  unfold sorted_values. rewrite sorted_nat_Permutation.
  rewrite <- (map_snd_decorated (held h)).
  apply Permutation_map, count_entries_held.
Qed.

(** X2. [_count] maps a rank to the number of cards of the hand that have
    it, and holds no entry for a rank the hand lacks; its values add up to
    the number of cards. The list that the predicate methods compare is the
    ascending arrangement of the held counts of the hand's ranks, one count
    for each distinct rank. *)
Theorem _count_held (h : Hand) :
  (forall v n, _count h !! v = Some n <-> 0 < n /\ n = held h v) /\
  (forall v, _count h !! v = None <-> held h v = 0) /\
  count_total (_count h) = length (cards h) /\
  sum_list (sorted_values (_count h)) = length (cards h) /\
  (forall n, n ∈ sorted_values (_count h) <->
             0 < n /\ exists v, held h v = n) /\
  StronglySorted le (sorted_values (_count h)) /\
  sorted_values (_count h)
    ≡ₚ map (held h) (remove_dups (map value (cards h))).
Proof.
  split; [apply _count_lookup_held|].
  split; [|split; [apply _count_total | split; [apply counts_sum|]]].
  - intros v. split.
    + intros Hnone. destruct (held h v) as [|k] eqn:E; [reflexivity|].
      assert (Hsome : _count h !! v = Some (S k))
        by (apply _count_lookup_held; split; [lia | congruence]).
      congruence.
    + intros Hzero. destruct (_count h !! v) as [n|] eqn:E; [|reflexivity].
      apply _count_lookup_held in E as [Hpos ->]. lia.
  - split; [apply counts_held|].
    split; [apply sorted_nat_sorted | apply sorted_values_held].
Qed.

(** ** One suit *)

Lemma _same_suit_iff (h : Hand) :
  cards h <> [] ->
  exists same,
    _same_suit h = Ok same /\
    (same = true <->
     forall c1 c2, c1 ∈ cards h -> c2 ∈ cards h -> suit c1 = suit c2).
Proof.
  intros Hne. unfold _same_suit.
  destruct (cards h) as [|head l] eqn:E; [congruence|].
  eexists. split; [reflexivity|].
  rewrite forallb_forall. split.
  - intros Hall c1 c2 H1 H2.
    apply list_elem_of_In, Hall, bool_decide_eq_true_1 in H1.
    apply list_elem_of_In, Hall, bool_decide_eq_true_1 in H2.
    congruence.
  - intros Hall c Hc. apply bool_decide_eq_true_2.
    apply Hall; [apply list_elem_of_In, Hc | apply list_elem_of_here].
Qed.

(** X3. On a hand without cards [_same_suit] raises [IndexError]. On any
    other hand it returns, and it returns [True] exactly when every two
    cards of the hand have the same suit. *)
Theorem _same_suit_all_pairs (h : Hand) :
  (cards h = [] ->
   _same_suit h = Raise (IndexError "list index out of range")) /\
  (cards h <> [] ->
   exists same,
     _same_suit h = Ok same /\
     (same = true <->
      forall c1 c2, c1 ∈ cards h -> c2 ∈ cards h -> suit c1 = suit c2)).
Proof.
  split; [|apply _same_suit_iff].
  intros Hnil. unfold _same_suit. rewrite Hnil. reflexivity.
Qed.

Lemma _same_suit_all_pairs_witness :
  _same_suit (mkHand []) = Raise (IndexError "list index out of range") /\
  exists same,
    _same_suit queens_set = Ok same /\
    (same = true <->
     forall c1 c2,
       c1 ∈ cards queens_set -> c2 ∈ cards queens_set -> suit c1 = suit c2).
Proof.
  split.
  - apply (_same_suit_all_pairs (mkHand [])). reflexivity.
  - apply (_same_suit_all_pairs queens_set). discriminate.
Defined.

(** ** The decision table of [classify_hand] *)

Lemma classify_hand_code_of (h : Hand) (same straight : bool) :
  _same_suit h = Ok same -> _straight h = Ok straight ->
  classify_hand h
    = Ok (code_of same straight
            (bool_decide (list_to_set (map value (cards h)) = royal_values))
            (sorted_values (_count h))).
Proof.
  intros Hsame Hst.
  unfold classify_hand, first_handtype, is_royal_flush, is_straight_flush,
    is_poker, is_full, is_flush, is_straight, is_set, is_two_pair, is_pair.
  rewrite Hsame, Hst. cbv zeta. fold royal_values.
  generalize (sorted_values (_count h)) as counts.
  generalize (bool_decide
                (list_to_set (map value (cards h)) = royal_values)) as royal.
  intros royal counts. unfold code_of.
  destruct same, straight, royal; cbn [bind and_code negb Nat.eqb andb];
    repeat (destruct (bool_decide _);
            cbn [bind and_code negb Nat.eqb andb]);
    reflexivity.
Qed.

Lemma classify_hand_table (h : Hand) :
  Hand_valid h ->
  exists same straight,
    _same_suit h = Ok same /\ _straight h = Ok straight /\
    classify_hand h
      = Ok (code_of same straight
              (bool_decide (list_to_set (map value (cards h)) = royal_values))
              (sorted_values (_count h))).
Proof.
  intros Hv.
  destruct (_same_suit_Ok h Hv) as [same Hsame].
  destruct (_straight_Ok h Hv) as [st Hst].
  exists same, st. split; [exact Hsame | split; [exact Hst|]].
  apply classify_hand_code_of; assumption.
Qed.

(** ** The order of the cards *)

Lemma Hand_valid_Permutation (h1 h2 : Hand) :
  cards h1 ≡ₚ cards h2 -> Hand_valid h1 -> Hand_valid h2.
Proof.
  intros Hperm [Hlen Hall]. split.
  - rewrite <- Hperm. exact Hlen.
  - rewrite <- Hperm. exact Hall.
Qed.

Lemma _same_suit_Permutation (h1 h2 : Hand) :
  cards h1 ≡ₚ cards h2 -> Hand_valid h1 -> _same_suit h1 = _same_suit h2.
Proof.
  intros Hperm Hv1. pose proof (Hand_valid_Permutation _ _ Hperm Hv1) as Hv2.
  destruct (_same_suit_iff h1) as (b1 & -> & H1).
  { destruct Hv1 as [Hlen _]. destruct (cards h1); [discriminate | congruence]. }
  destruct (_same_suit_iff h2) as (b2 & -> & H2).
  { destruct Hv2 as [Hlen _]. destruct (cards h2); [discriminate | congruence]. }
  f_equal. apply eq_true_iff_eq. rewrite H1, H2.
  split; intros Hall c1 c2 Hc1 Hc2; apply Hall;
    first [rewrite Hperm; assumption | rewrite <- Hperm; assumption].
Qed.

Lemma _sort_by_value_Permutation (h1 h2 : Hand) :
  cards h1 ≡ₚ cards h2 -> Hand_valid h1 ->
  _sort_by_value h1 = _sort_by_value h2.
Proof.
  intros Hperm Hv1. pose proof (Hand_valid_Permutation _ _ Hperm Hv1) as Hv2.
  destruct Hv1 as [_ Hall1]. destruct Hv2 as [_ Hall2].
  pose proof (values_valid h1 Hall1) as Hval1.
  destruct (sorted_ranks _ Hval1) as (vs1 & Hvs1 & Hp1 & Hs1).
  destruct (sorted_ranks _ (values_valid h2 Hall2)) as (vs2 & Hvs2 & Hp2 & Hs2).
  unfold _sort_by_value. rewrite Hvs1, Hvs2. cbn [bind]. do 2 f_equal.
  apply (sorted_Permutation_eq by_rank); [|assumption..|].
  - intros x y Hx Hy Hxy Hyx. rewrite Hp1 in Hx, Hy.
    rewrite Forall_forall in Hval1.
    apply rank_of_inj; [apply Hval1, Hx | apply Hval1, Hy|].
    unfold by_rank in *. lia.
  - rewrite Hp1, Hp2, Hperm. reflexivity.
Qed.

(** X4. The classification of a valid hand does not depend on the order in
    which the hand lists its cards. *)
Theorem classify_hand_Permutation (h1 h2 : Hand)
    (Hv : Hand_valid h1) (Hperm : cards h1 ≡ₚ cards h2) :
  classify_hand h1 = classify_hand h2.
Proof.
  pose proof (Hand_valid_Permutation _ _ Hperm Hv) as Hv2.
  destruct (classify_hand_table h1 Hv) as (same1 & st1 & Hs1 & Ht1 & ->).
  destruct (classify_hand_table h2 Hv2) as (same2 & st2 & Hs2 & Ht2 & ->).
  rewrite (_same_suit_Permutation _ _ Hperm Hv) in Hs1.
  unfold _straight in Ht1. rewrite (_sort_by_value_Permutation _ _ Hperm Hv) in Ht1.
  fold (_straight h2) in Ht1.
  assert (same1 = same2) by congruence. assert (st1 = st2) by congruence.
  subst same2 st2.
  pose proof (Permutation_map value Hperm) as Hvalues.
  rewrite !_count_values, (count_values_Permutation _ _ Hvalues).
  rewrite (list_to_set_perm_L _ _ Hvalues).
  reflexivity.
Qed.

Lemma classify_hand_Permutation_witness :
  Hand_valid queens_set /\
  classify_hand queens_set = classify_hand (mkHand (rev (cards queens_set))).
Proof.
  assert (Hv : Hand_valid queens_set)
    by (apply (bool_decide_unpack _); vm_compute; reflexivity).
  split; [exact Hv|].
  apply (classify_hand_Permutation queens_set _ Hv).
  cbn [cards]. apply Permutation_rev.
Defined.

(** ** Straights *)

Lemma str_contains_substring (s sub : string) :
  str_contains s sub = true <->
  exists i, substring i (String.length sub) s = sub.
Proof.
  induction s as [|c s IH]; cbn [str_contains].
  - rewrite orb_false_r, prefix_correct. split; [eauto|].
    intros [[|i] Hi]; [exact Hi|].
    destruct sub; [reflexivity | discriminate].
  - rewrite orb_true_iff, prefix_correct, IH. split.
    + intros [H0 | [i Hi]]; [exists 0; exact H0 | exists (S i); exact Hi].
    + intros [[|i] Hi]; [left; exact Hi | right; exists i; exact Hi].
Qed.

(** What each of the nine runs of five consecutive ranks is to the code. *)
Lemma run_facts (i : nat) :
  i <= 8 ->
  length (run i) = 5 /\
  Forall (fun v => v ∈ str_set CARD_VALUE_ORDER) (run i) /\
  StronglySorted by_rank (run i) /\
  str_contains CARD_VALUE_ORDER (str_join (run i)) = true /\
  sorted_values (count_values (run i)) = [1; 1; 1; 1; 1] /\
  (list_to_set (run i) : gset ascii) <> royal_values.
Proof.
  intros Hi.
  do 9 (destruct i as [|i];
        [ split; [reflexivity|];
          split; [apply (bool_decide_unpack _); vm_compute; reflexivity|];
          split; [apply (bool_decide_unpack _); vm_compute; reflexivity|];
          split; [vm_compute; reflexivity|];
          split; [vm_compute; reflexivity|];
          apply (bool_decide_unpack _); vm_compute; reflexivity
        | ]).
  lia.
Qed.

Lemma substring_run (i : nat) (vs : list ascii) :
  length vs = 5 ->
  substring i 5 CARD_VALUE_ORDER = str_join vs -> i <= 8 /\ vs = run i.
Proof.
  intros Hlen Hsub. split.
  - apply (f_equal String.length) in Hsub.
    rewrite length_str_join, Hlen in Hsub.
    do 9 (destruct i as [|i]; [lia|]).
    do 5 (destruct i as [|i]; [vm_compute in Hsub; discriminate|]).
    vm_compute in Hsub. discriminate.
  - unfold run. rewrite Hsub. unfold str_join.
    symmetry. apply list_ascii_of_string_of_list_ascii.
Qed.

Lemma _straight_run (h : Hand) :
  Hand_valid h ->
  _straight h = Ok true <->
  exists i, i <= 8 /\ map value (cards h) ≡ₚ run i.
Proof.
  intros [Hlen Hall].
  pose proof (values_valid h Hall) as Hval.
  destruct (sorted_ranks _ Hval) as (vs & Hvs & Hperm & Hsorted).
  assert (Hlen_vs : length vs = 5) by (rewrite Hperm, length_map; exact Hlen).
  unfold _straight, _sort_by_value. rewrite Hvs. cbn [bind]. split.
  - intros Hc.
    assert (Hin : str_contains CARD_VALUE_ORDER (str_join vs) = true)
      by congruence.
    clear Hc. apply str_contains_substring in Hin as [i Hc].
    rewrite length_str_join, Hlen_vs in Hc.
    destruct (substring_run i vs Hlen_vs Hc) as [Hi ->].
    exists i. split; [exact Hi | symmetry; exact Hperm].
  - intros (i & Hi & Hrun).
    destruct (run_facts i Hi) as (_ & _ & Hs & Hc & _).
    assert (Heq : vs = run i).
    { apply (sorted_Permutation_eq by_rank); [|assumption..|].
      - intros x y Hx Hy Hxy Hyx. rewrite Hperm in Hx, Hy.
        rewrite Forall_forall in Hval.
        apply rank_of_inj; [apply Hval, Hx | apply Hval, Hy|].
        unfold by_rank in *. lia.
      - rewrite Hperm. exact Hrun. }
    rewrite Heq, Hc. reflexivity.
Qed.

(** X5. On a valid hand [_straight] is true exactly when the ranks of the
    hand are a rearrangement of five consecutive symbols of
    [CARD_VALUE_ORDER], starting at one of its first nine positions: the ace
    counts below the two and not above the king. *)
Theorem _straight_consecutive (h : Hand) (Hv : Hand_valid h) :
  _straight h = Ok true <->
  exists i, i <= 8 /\ map value (cards h) ≡ₚ run i.
Proof. apply _straight_run, Hv. Qed.

Lemma _straight_consecutive_witness :
  Hand_valid low_cards /\
  (_straight low_cards = Ok true <->
   exists i, i <= 8 /\ map value (cards low_cards) ≡ₚ run i).
Proof.
  assert (Hv : Hand_valid low_cards)
    by (apply (bool_decide_unpack _); vm_compute; reflexivity).
  split; [exact Hv|].
  exact (_straight_consecutive low_cards Hv).
Defined.

(** ** The shapes of the count table *)

Lemma partitions_of_five (l : list nat) :
  StronglySorted le l -> Forall (lt 0) l -> sum_list l = 5 ->
  l ∈ [[5]; [1; 4]; [2; 3]; [1; 1; 3]; [1; 2; 2]; [1; 1; 1; 2];
       [1; 1; 1; 1; 1]].
Proof.
  intros Hs Hp Hsum.
  do 6 (destruct l as [|? l];
        [ repeat match goal with
                 | H : StronglySorted _ (_ :: _) |- _ =>
                     apply StronglySorted_inv in H as [? ?]
                 | H : Forall _ (_ :: _) |- _ => apply Forall_cons in H as [? ?]
                 end;
          cbn in Hsum; enum_small;
          repeat (first [apply list_elem_of_here | apply list_elem_of_further])
        | ]).
  repeat match goal with
         | H : Forall _ (_ :: _) |- _ => apply Forall_cons in H as [? ?]
         end.
  cbn in Hsum. lia.
Qed.

Lemma counts_partition (h : Hand) :
  length (cards h) = 5 ->
  sorted_values (_count h)
    ∈ [[5]; [1; 4]; [2; 3]; [1; 1; 3]; [1; 2; 2]; [1; 1; 1; 2];
       [1; 1; 1; 1; 1]].
Proof.
  intros Hlen. apply partitions_of_five.
  - apply sorted_nat_sorted.
  - apply Forall_forall. intros n Hn. apply counts_held in Hn as [Hpos _].
    exact Hpos.
  - rewrite counts_sum. exact Hlen.
Qed.

Lemma counts_distinct (h : Hand) :
  length (cards h) = 5 -> (forall v, held h v <= 1) ->
  sorted_values (_count h) = [1; 1; 1; 1; 1].
Proof.
  intros Hlen Hheld.
  assert (Hone : forall n, n ∈ sorted_values (_count h) -> n = 1).
  { intros n Hn. apply counts_held in Hn as [Hpos [v Hv]].
    specialize (Hheld v). lia. }
  pose proof (counts_partition h Hlen) as Hpart.
  repeat (apply elem_of_cons in Hpart as [Heq | Hpart];
          [ rewrite Heq in Hone |]).
  8: apply elem_of_nil in Hpart; destruct Hpart.
  7: exact Heq.
  - specialize (Hone 5 (list_elem_of_here _ _)). discriminate.
  - specialize (Hone 4 (list_elem_of_further _ _ _ (list_elem_of_here _ _))).
    discriminate.
  - specialize (Hone 2 (list_elem_of_here _ _)). discriminate.
  - specialize (Hone 3 (list_elem_of_further _ _ _
                          (list_elem_of_further _ _ _ (list_elem_of_here _ _)))).
    discriminate.
  - specialize (Hone 2 (list_elem_of_further _ _ _ (list_elem_of_here _ _))).
    discriminate.
  - specialize (Hone 2 (list_elem_of_further _ _ _
                          (list_elem_of_further _ _ _
                             (list_elem_of_further _ _ _
                                (list_elem_of_here _ _))))).
    discriminate.
Qed.

Lemma filter_eq_absent (vs : list ascii) (v : ascii) :
  v ∉ vs -> filter (fun x => x = v) vs = [].
Proof.
  induction vs as [|x vs IH]; intros Hout; [reflexivity|].
  apply not_elem_of_cons in Hout as [Hne Hout].
  rewrite filter_cons. destruct (decide (x = v)); [congruence|].
  apply IH, Hout.
Qed.

Lemma filter_eq_NoDup (vs : list ascii) (v : ascii) :
  NoDup vs -> length (filter (fun x => x = v) vs) <= 1.
Proof.
  induction 1 as [|x vs Hx _ IH]; [cbn; lia|].
  rewrite filter_cons. destruct (decide (x = v)) as [-> | Hne]; [|exact IH].
  cbn [length].
  rewrite (filter_eq_absent vs v Hx). cbn. lia.
Qed.

Lemma held_NoDup (h : Hand) :
  NoDup (map value (cards h)) -> forall v, held h v <= 1.
Proof.
  intros Hnd v. unfold held. rewrite <- filter_value.
  apply filter_eq_NoDup, Hnd.
Qed.

Lemma NoDup_of_size (vs : list ascii) :
  size (list_to_set vs : gset ascii) = length vs -> NoDup vs.
Proof.
  induction vs as [|x vs IH]; [constructor|].
  rewrite list_to_set_cons. cbn [length]. intros Hsize.
  assert (Hle : size (list_to_set vs : gset ascii) <= length vs).
  { clear. induction vs as [|y vs IH]; cbn [length].
    - rewrite list_to_set_nil, size_empty. lia.
    - rewrite list_to_set_cons, size_union_alt, size_singleton.
      assert (size (list_to_set vs ∖ {[y]} : gset ascii)
              <= size (list_to_set vs : gset ascii))
        by (apply subseteq_size, subseteq_difference_l; reflexivity).
      lia. }
  destruct (decide (x ∈ vs)) as [Hin | Hout].
  - assert (Heq : ({[x]} ∪ list_to_set vs : gset ascii) = list_to_set vs).
    { apply subseteq_union_1_L, singleton_subseteq_l.
      apply elem_of_list_to_set, Hin. }
    rewrite Heq in Hsize. lia.
  - apply NoDup_cons. split; [exact Hout|]. apply IH.
    rewrite size_union, size_singleton in Hsize; [lia|].
    apply disjoint_singleton_l. rewrite elem_of_list_to_set. exact Hout.
Qed.

Lemma royal_distinct (h : Hand) :
  length (cards h) = 5 ->
  list_to_set (map value (cards h)) = royal_values ->
  sorted_values (_count h) = [1; 1; 1; 1; 1].
Proof.
  intros Hlen Hroyal. apply counts_distinct; [exact Hlen|].
  apply held_NoDup, NoDup_of_size.
  rewrite Hroyal, length_map, Hlen. reflexivity.
Qed.

Lemma straight_distinct (h : Hand) :
  Hand_valid h -> _straight h = Ok true ->
  sorted_values (_count h) = [1; 1; 1; 1; 1] /\
  list_to_set (map value (cards h)) <> royal_values.
Proof.
  intros Hv Hst. apply (_straight_run h Hv) in Hst as (i & Hi & Hperm).
  destruct (run_facts i Hi) as (_ & _ & _ & _ & Hcounts & Hroyal).
  rewrite _count_values, (count_values_Permutation _ _ Hperm).
  rewrite (list_to_set_perm_L _ _ Hperm). auto.
Qed.

(** ** What each code means *)

(** X6. On a valid hand each code of [classify_hand] stands for one
    condition on four facts about the hand: whether its cards share one suit,
    whether its set of ranks is that of a royal flush, whether its ranks are
    consecutive, and the sorted list of how often each held rank occurs.
    Four of a kind and full house are decided by the counts alone; three of a
    kind, two pairs and one pair also need mixed suits; and highest-card is
    given to mixed suits without a run whose ranks are all different or all
    the same. *)
Theorem classify_hand_meaning (h : Hand) (Hv : Hand_valid h) :
  exists (same straight royal : bool) (counts : list nat),
    _same_suit h = Ok same /\ _straight h = Ok straight /\
    royal = bool_decide (list_to_set (map value (cards h)) = royal_values) /\
    counts = sorted_values (_count h) /\
    (classify_hand h = Ok 1 <-> same = true /\ royal = true) /\
    (classify_hand h = Ok 2 <->
     same = true /\ royal = false /\ straight = true) /\
    (classify_hand h = Ok 3 <-> counts = [1; 4]) /\
    (classify_hand h = Ok 4 <-> counts = [2; 3]) /\
    (classify_hand h = Ok 5 <->
     same = true /\ royal = false /\ straight = false /\
     counts <> [1; 4] /\ counts <> [2; 3]) /\
    (classify_hand h = Ok 6 <-> same = false /\ straight = true) /\
    (classify_hand h = Ok 7 <-> same = false /\ counts = [1; 1; 3]) /\
    (classify_hand h = Ok 8 <-> same = false /\ counts = [1; 2; 2]) /\
    (classify_hand h = Ok 9 <-> same = false /\ counts = [1; 1; 1; 2]) /\
    (classify_hand h = Ok 10 <->
     same = false /\ straight = false /\
     (counts = [1; 1; 1; 1; 1] \/ counts = [5])).
Proof.
  destruct (classify_hand_table h Hv) as (same & st & Hsame & Hst & Hcode).
  exists same, st,
    (bool_decide (list_to_set (map value (cards h)) = royal_values)),
    (sorted_values (_count h)).
  split; [exact Hsame | split; [exact Hst|]].
  split; [reflexivity | split; [reflexivity|]].
  rewrite Hcode.
  assert (Hstraight : st = true ->
            sorted_values (_count h) = [1; 1; 1; 1; 1] /\
            bool_decide (list_to_set (map value (cards h)) = royal_values)
              = false).
  { intros ->. destruct (straight_distinct h Hv Hst) as [Hc Hr].
    split; [exact Hc | apply bool_decide_eq_false_2, Hr]. }
  assert (Hroyal :
            bool_decide (list_to_set (map value (cards h)) = royal_values)
              = true ->
            sorted_values (_count h) = [1; 1; 1; 1; 1]).
  { intros Hr. apply bool_decide_eq_true_1 in Hr.
    apply royal_distinct; [apply Hv | exact Hr]. }
  pose proof (counts_partition h (proj1 Hv)) as Hpart.
  revert Hstraight Hroyal Hpart.
  generalize (sorted_values (_count h)) as counts.
  generalize (bool_decide
                (list_to_set (map value (cards h)) = royal_values)) as royal.
  clear. intros royal counts Hstraight Hroyal Hpart.
  repeat (apply elem_of_cons in Hpart as [-> | Hpart]);
    [..| apply elem_of_nil in Hpart; destruct Hpart];
    destruct same, st, royal;
    try (destruct Hstraight as [? ?]; [reflexivity|]; discriminate);
    try (specialize (Hroyal eq_refl); discriminate);
    vm_compute;
    repeat split; intros;
    repeat match goal with
           | H : _ /\ _ |- _ => destruct H
           | H : _ \/ _ |- _ => destruct H
           end;
    try discriminate; try congruence; auto.
Qed.

Lemma classify_hand_meaning_witness :
  Hand_valid queens_set /\ classify_hand queens_set = Ok 7.
Proof.
  assert (Hv : Hand_valid queens_set)
    by (apply (bool_decide_unpack _); vm_compute; reflexivity).
  split; [exact Hv|].
  destruct (classify_hand_meaning queens_set Hv)
    as (same & st & royal & counts & Hsame & _ & _ & Hcounts
        & _ & _ & _ & _ & _ & _ & H7 & _).
  apply H7. split.
  - vm_compute in Hsame. congruence.
  - rewrite Hcounts. vm_compute. reflexivity.
Defined.

(** ** The best candidate *)

Lemma search_loop_least (space : list (result Hand)) :
  forall (winning best : Hand),
    search_loop winning space = Ok best ->
    forall h', In (Ok h') space ->
      exists cb c',
        classify_hand best = Ok cb /\ classify_hand h' = Ok c' /\ cb <= c'.
Proof.
  induction space as [|step space IH]; intros winning best Hloop h' Hin.
  - destruct Hin.
  - cbn [search_loop] in Hloop.
    apply bind_Ok in Hloop as [new_hand [-> Hloop]].
    apply bind_Ok in Hloop as [better [Hgt Hloop]].
    destruct Hin as [[= <-] | Hin]; [|exact (IH _ _ Hloop _ Hin)].
    destruct (Hand_gt_inv _ _ _ Hgt) as (cn & cw & Hcn & Hcw & Hcase).
    destruct better.
    + destruct (search_loop_Ok _ _ _ _ Hloop Hcn) as (cb & Hcb & Hle & _).
      exists cb, cn. auto.
    + destruct (search_loop_Ok _ _ _ _ Hloop Hcw) as (cb & Hcb & Hle & _).
      exists cb, cn. split; [exact Hcb | split; [exact Hcn | lia]].
Qed.

(** X7. When [search] returns on a valid starting hand, the hand it
    returns is the starting hand or one of the hands of the search space,
    and its code is no greater than the code of the starting hand and no
    greater than the code of any hand of the search space: the result is a
    best hand among the starting hand and all its candidates. *)
Theorem search_least_code (hand : Hand) (deck : list Card) (best : Hand)
    (Hv : Hand_valid hand) (Hs : search hand deck = Ok best) :
  (best = hand \/ In (Ok best) (_search_space hand deck)) /\
  exists cb,
    classify_hand best = Ok cb /\
    (exists c0, classify_hand hand = Ok c0 /\ cb <= c0) /\
    (forall h', In (Ok h') (_search_space hand deck) ->
                exists c', classify_hand h' = Ok c' /\ cb <= c').
Proof.
  destruct (classify_hand_range hand Hv) as [c0 [Hc0 _]].
  destruct (search_loop_Ok _ _ _ _ Hs Hc0) as (cb & Hcb & Hle & Hwhich).
  split; [destruct Hwhich as [-> | [Hin _]]; auto|].
  exists cb. split; [exact Hcb|]. split; [exists c0; auto|].
  intros h' Hin.
  destruct (search_loop_least _ _ _ Hs h' Hin) as (cb' & c' & Hcb' & Hc' & Hle').
  exists c'. split; [exact Hc'|]. congruence.
Qed.

Lemma search_least_code_witness :
  Hand_valid queens_set /\
  exists best,
    search queens_set royal_deck = Ok best /\
    (best = queens_set \/ In (Ok best) (_search_space queens_set royal_deck))
    /\
    exists cb,
      classify_hand best = Ok cb /\
      (exists c0, classify_hand queens_set = Ok c0 /\ cb <= c0) /\
      (forall h', In (Ok h') (_search_space queens_set royal_deck) ->
                  exists c', classify_hand h' = Ok c' /\ cb <= c').
Proof.
  assert (Hv : Hand_valid queens_set)
    by (apply (bool_decide_unpack _); vm_compute; reflexivity).
  split; [exact Hv|].
  eexists. split; [vm_compute; reflexivity|].
  apply (search_least_code queens_set royal_deck _ Hv).
  vm_compute. reflexivity.
Defined.

(** ** When the search returns *)

Lemma take_take_le (deck : list Card) (n m : nat) :
  n <= m -> take n deck = take n (take m deck).
Proof. intros Hle. rewrite take_take. f_equal. lia. Qed.

Lemma candidates_Ok (hand : Hand) (deck : list Card) :
  Hand_valid hand -> NoDup (cards hand) -> Forall Card_valid deck ->
  5 <= length deck -> NoDup (take 5 deck) ->
  (forall c, c ∈ take 4 deck -> c ∉ cards hand) ->
  Forall (fun step => exists h, step = Ok h /\ Hand_valid h)
         (_search_space hand deck).
Proof.
  intros [Hlen Hall] Hnd Hdeck Hlong Hnd5 Hfresh.
  apply Forall_forall. intros step Hin.
  apply list_elem_of_In, _search_space_In in Hin as (num & t & Hnum & Hin & ->).
  destruct (candidate_step_ok (list_to_set (cards hand)) deck num t)
    as [Hraise | Hok]; [| exact Hdeck | | exact Hok].
  { intros c Hc. apply elem_of_list_to_set in Hc.
    rewrite Forall_forall in Hall. apply Hall, Hc. }
  exfalso. revert Hraise. unfold candidate, Hand_init. cbv zeta.
  destruct (combinations_subset _ _ _ Hin) as [Hsub Hsize].
  assert (Hhand : size (list_to_set (cards hand) : gset Card) = 5)
    by (rewrite size_list_to_set; assumption).
  assert (Hfive : length (elements
            ((list_to_set (cards hand) ∖ list_to_set t)
             ∪ list_to_set (take num deck) : gset Card)) = 5).
  { rewrite length_elements, size_union.
    - rewrite (size_difference _ _ Hsub), Hsize, Hhand.
      rewrite size_list_to_set.
      + rewrite length_take. lia.
      + rewrite (take_take_le deck num 5) by lia.
        apply (sublist_NoDup _ _ Hnd5), sublist_take.
    - destruct (decide (num = 5)) as [-> | Hne].
      + assert (Heq : (list_to_set t : gset Card) = list_to_set (cards hand))
          by (apply set_subseteq_size_eq; [exact Hsub | lia]).
        rewrite Heq, difference_diag_L. apply disjoint_empty_l.
      + apply disjoint_difference_l2, elem_of_disjoint. intros c Hc Hd.
        apply elem_of_list_to_set in Hc, Hd.
        apply (Hfresh c); [|exact Hc].
        rewrite (take_take_le deck num 4) in Hd by lia.
        eapply elem_of_sublist; [exact Hd | apply sublist_take]. }
  rewrite Hfive. discriminate.
Qed.

Lemma duplicate_raises (hand : Hand) (deck : list Card) :
  length (cards hand) = 5 -> ~ NoDup (cards hand) ->
  In (Raise hand_size_error) (_search_space hand deck).
Proof.
  intros Hlen Hdup.
  pose proof (size_list_to_set_dup _ Hdup) as Hsize. rewrite Hlen in Hsize.
  assert (Hin : In (take 1 (elements (list_to_set (cards hand) : gset Card)))
                   (combinations
                      (elements (list_to_set (cards hand) : gset Card)) 1)).
  { assert (Hne : length (take 1 (elements
                            (list_to_set (cards hand) : gset Card))) = 1).
    { rewrite length_take, length_elements.
      assert (size (list_to_set (cards hand) : gset Card) <> 0).
      { destruct (cards hand) as [|c l] eqn:Ec; [discriminate|].
        intros H0. apply size_empty_inv in H0.
        apply (not_elem_of_empty (C := gset Card) c). rewrite <- H0.
        apply elem_of_list_to_set, list_elem_of_here. }
      lia. }
    rewrite <- Hne at 2. apply sublist_combinations, sublist_take. }
  apply _search_space_In. eexists 1, _.
  split; [lia | split; [exact Hin|]].
  unfold candidate. cbv zeta. symmetry. apply Hand_init_elements.
  destruct (candidate_size _ deck 1 _ Hin) as [_ Hc]. lia.
Qed.

Lemma full_discard_raises (hand : Hand) (deck : list Card) :
  length (cards hand) = 5 -> NoDup (cards hand) ->
  size (list_to_set (take 5 deck) : gset Card) < 5 ->
  In (Raise hand_size_error) (_search_space hand deck).
Proof.
  intros Hlen Hnd Hsmall.
  assert (Hsize : size (list_to_set (cards hand) : gset Card) = 5)
    by (rewrite size_list_to_set; assumption).
  pose proof (sublist_combinations
                (elements (list_to_set (cards hand) : gset Card))
                (elements (list_to_set (cards hand) : gset Card))) as Hin.
  rewrite length_elements, Hsize in Hin. specialize (Hin (reflexivity _)).
  apply _search_space_In. eexists 5, _.
  split; [lia | split; [exact Hin|]].
  unfold candidate. cbv zeta. symmetry. apply Hand_init_elements.
  rewrite list_to_set_elements_L, difference_diag_L, union_empty_l_L. lia.
Qed.

Lemma drawn_twice_raises (hand : Hand) (deck : list Card) (c : Card) :
  length (cards hand) = 5 -> NoDup (cards hand) ->
  c ∈ take 4 deck -> c ∈ cards hand ->
  In (Raise hand_size_error) (_search_space hand deck).
Proof.
  intros Hlen Hnd Hdeck Hhand.
  set (X := list_to_set (cards hand) : gset Card).
  assert (Hsize : size X = 5) by (unfold X; rewrite size_list_to_set; assumption).
  assert (HcX : c ∈ X) by (apply elem_of_list_to_set, Hhand).
  apply elem_of_take in Hdeck as (j & Hj & Hlt).
  set (num := S j).
  assert (Hrest : size (X ∖ {[c]}) = 4).
  { rewrite size_difference by (apply singleton_subseteq_l, HcX).
    rewrite size_singleton. lia. }
  set (T := list_to_set (take num (elements (X ∖ {[c]}))) : gset Card).
  assert (HT : T ⊆ X ∖ {[c]}).
  { intros x Hx. apply elem_of_list_to_set in Hx.
    apply elem_of_elements. eapply elem_of_sublist; [exact Hx|].
    apply sublist_take. }
  assert (HTsize : size T = num).
  { unfold T. rewrite size_list_to_set.
    - rewrite length_take, length_elements. lia.
    - apply (sublist_NoDup _ (elements (X ∖ {[c]})));
        [apply NoDup_elements | apply sublist_take]. }
  assert (HTX : T ⊆ X).
  { intros x Hx. apply HT, elem_of_difference in Hx as [Hx _]. exact Hx. }
  destruct (subset_combinations X T HTX) as (t & Hin & Ht).
  rewrite HTsize in Hin.
  apply _search_space_In. exists num, t.
  split; [unfold num; lia | split; [exact Hin|]].
  unfold candidate. cbv zeta. symmetry. apply Hand_init_elements.
  fold X. rewrite Ht.
  assert (Hdrawn : c ∈ (list_to_set (take num deck) : gset Card)).
  { apply elem_of_list_to_set, elem_of_take. exists j. split; [exact Hj|].
    unfold num. lia. }
  assert (Hkept : c ∈ X ∖ T).
  { apply elem_of_difference. split; [exact HcX|]. intros HcT.
    apply HT, elem_of_difference in HcT as [_ Hne].
    apply Hne, elem_of_singleton. reflexivity. }
  rewrite size_union_alt, (size_difference _ _ HTX), HTsize, Hsize.
  assert (Hless : size ((list_to_set (take num deck) : gset Card) ∖ (X ∖ T))
                  < size (list_to_set (take num deck) : gset Card)).
  { apply subset_size. split.
    - apply subseteq_difference_l. reflexivity.
    - intros Hall. specialize (Hall c Hdrawn).
      apply elem_of_difference in Hall as [_ Hout]. auto. }
  pose proof (size_list_to_set_le (take num deck)) as Hle.
  rewrite length_take in Hle. unfold num in *. lia.
Qed.

(** X8. For a valid hand and a deck of valid cards [search] either returns
    a hand or raises the hand-size error, and it returns exactly when the
    cards of the hand are pairwise distinct, the deck has at least five
    cards, its first five cards are pairwise distinct, and none of its first
    four cards is in the hand. *)
Theorem search_returns_iff (hand : Hand) (deck : list Card)
    (Hv : Hand_valid hand) (Hdeck : Forall Card_valid deck) :
  ((exists best, search hand deck = Ok best) <->
   NoDup (cards hand) /\ 5 <= length deck /\ NoDup (take 5 deck) /\
   (forall c, c ∈ take 4 deck -> c ∉ cards hand)) /\
  ((exists best, search hand deck = Ok best) \/
   search hand deck = Raise hand_size_error).
Proof.
  assert (Hraise : In (Raise hand_size_error) (_search_space hand deck) ->
                   search hand deck = Raise hand_size_error).
  { intros Hin. apply search_loop_raises; [exact Hv | | exact Hin].
    apply _search_space_step_ok; [apply Hv | exact Hdeck]. }
  assert (Hok : NoDup (cards hand) /\ 5 <= length deck /\
                NoDup (take 5 deck) /\
                (forall c, c ∈ take 4 deck -> c ∉ cards hand) ->
                exists best, search hand deck = Ok best).
  { intros (Hnd & Hlong & Hnd5 & Hfresh).
    apply search_loop_returns; [exact Hv|].
    apply candidates_Ok; assumption. }
  assert (Hcases : (NoDup (cards hand) /\ 5 <= length deck /\
                    NoDup (take 5 deck) /\
                    (forall c, c ∈ take 4 deck -> c ∉ cards hand)) \/
                   In (Raise hand_size_error) (_search_space hand deck)).
  { destruct Hv as [Hlen _].
    destruct (decide (NoDup (cards hand))) as [Hnd | Hdup];
      [|right; apply duplicate_raises; assumption].
    destruct (decide (5 <= length deck)) as [Hlong | Hshort].
    2: { right. apply full_discard_raises; [assumption..|].
         pose proof (size_list_to_set_le (take 5 deck)) as Hle.
         rewrite length_take in Hle. lia. }
    destruct (decide (NoDup (take 5 deck))) as [Hnd5 | Hdup5].
    2: { right. apply full_discard_raises; [assumption..|].
         pose proof (size_list_to_set_dup _ Hdup5) as Hlt.
         rewrite length_take in Hlt. lia. }
    destruct (decide (Forall (fun c => c ∉ cards hand) (take 4 deck)))
      as [Hfresh | Hstale].
    - left. rewrite Forall_forall in Hfresh. auto.
    - right. apply not_Forall_Exists in Hstale; [|apply _].
      apply Exists_exists in Hstale as (c & Hc & Hin).
      apply dec_stable in Hin.
      eapply drawn_twice_raises; eassumption. }
  split.
  - split; [|exact Hok].
    intros [best Hbest]. destruct Hcases as [Hcond | Hin]; [exact Hcond|].
    rewrite (Hraise Hin) in Hbest. discriminate.
  - destruct Hcases as [Hcond | Hin]; [left; apply Hok, Hcond|].
    right. apply Hraise, Hin.
Qed.

Lemma search_returns_iff_witness :
  Hand_valid queens_set /\ Forall Card_valid royal_deck /\
  exists best, search queens_set royal_deck = Ok best.
Proof.
  assert (Hv : Hand_valid queens_set)
    by (apply (bool_decide_unpack _); vm_compute; reflexivity).
  assert (Hdeck : Forall Card_valid royal_deck)
    by (apply (bool_decide_unpack _); vm_compute; reflexivity).
  split; [exact Hv | split; [exact Hdeck|]].
  apply (search_returns_iff queens_set royal_deck Hv Hdeck).
  split; [apply (bool_decide_unpack _); vm_compute; reflexivity|].
  split; [simpl; lia|].
  split; [apply (bool_decide_unpack _); vm_compute; reflexivity|].
  apply Forall_forall. apply (bool_decide_unpack _). vm_compute. reflexivity.
Defined.

(** ** The order of hands *)

Lemma Hand_cmp_codes (a b : Hand) (ca cb : nat) :
  Hand_valid a -> Hand_valid b ->
  classify_hand a = Ok ca -> classify_hand b = Ok cb ->
  Hand_cmp a b = Ok (cmp_codes ca cb).
Proof.
  intros Ha Hb Hca Hcb. unfold Hand_cmp, cmp_codes.
  rewrite Hca, Hcb. cbn [bind].
  destruct (Nat.ltb ca cb) eqn:E1; [reflexivity|].
  destruct (Nat.ltb cb ca) eqn:E2; [reflexivity|].
  apply Nat.ltb_ge in E1, E2.
  assert (Heq : Nat.eqb ca cb = true) by (apply Nat.eqb_eq; lia).
  rewrite Heq. cbn [andb].
  destruct (Nat.eqb ca 10); [|reflexivity].
  rewrite (_max_values_None a Ha), (_max_values_None b Hb). reflexivity.
Qed.

(** X9. On valid hands [Hand.__cmp__] always returns, and returns -1, 0 or
    1; a hand compares as equal to itself, swapping the two hands negates
    the result, the result is 0 exactly when the two codes agree, and
    "greater than" is transitive. *)
Theorem Hand_cmp_order (a b c : Hand)
    (Ha : Hand_valid a) (Hb : Hand_valid b) (Hc : Hand_valid c) :
  exists z : Z,
    Hand_cmp a b = Ok z /\ (z = (-1)%Z \/ z = 0%Z \/ z = 1%Z) /\
    Hand_cmp b a = Ok (- z)%Z /\
    Hand_cmp a a = Ok 0%Z /\
    (z = 0%Z <-> classify_hand a = classify_hand b) /\
    (Hand_gt a b = Ok true -> Hand_gt b c = Ok true ->
     Hand_gt a c = Ok true).
Proof.
  destruct (classify_hand_range a Ha) as [ca [Hca _]].
  destruct (classify_hand_range b Hb) as [cb [Hcb _]].
  destruct (classify_hand_range c Hc) as [cc [Hcc _]].
  exists (cmp_codes ca cb).
  unfold Hand_gt.
  rewrite (Hand_cmp_codes a b ca cb), (Hand_cmp_codes b a cb ca),
    (Hand_cmp_codes a a ca ca), (Hand_cmp_codes b c cb cc),
    (Hand_cmp_codes a c ca cc) by assumption.
  rewrite Hca, Hcb. cbn [bind]. unfold cmp_codes.
  destruct (Nat.ltb ca cb) eqn:E1, (Nat.ltb cb ca) eqn:E2,
    (Nat.ltb cb cc) eqn:E3, (Nat.ltb ca cc) eqn:E4,
    (Nat.ltb cc cb) eqn:E5, (Nat.ltb cc ca) eqn:E6;
    rewrite ?Nat.ltb_irrefl;
    rewrite ?Nat.ltb_lt, ?Nat.ltb_ge in *;
    try lia;
    (split; [reflexivity|]); (split; [auto|]); (split; [reflexivity|]);
    (split; [reflexivity|]);
    (split; [split; intros H; [try discriminate; f_equal; lia
                              | try (injection H as H); try lia; reflexivity]
            |]);
    cbn; intros; try discriminate; reflexivity.
Qed.

Lemma Hand_cmp_order_witness :
  Hand_valid queens_set /\ Hand_valid sevens_set /\ Hand_valid low_cards /\
  exists z : Z,
    Hand_cmp queens_set low_cards = Ok z /\
    Hand_cmp low_cards queens_set = Ok (- z)%Z.
Proof.
  assert (Hq : Hand_valid queens_set)
    by (apply (bool_decide_unpack _); vm_compute; reflexivity).
  assert (Hs : Hand_valid sevens_set)
    by (apply (bool_decide_unpack _); vm_compute; reflexivity).
  assert (Hl : Hand_valid low_cards)
    by (apply (bool_decide_unpack _); vm_compute; reflexivity).
  split; [exact Hq | split; [exact Hs | split; [exact Hl|]]].
  destruct (Hand_cmp_order queens_set low_cards sevens_set Hq Hl Hs)
    as (z & Hz & _ & Hswap & _).
  exists z. split; assumption.
Defined.

(** ** The order of cards *)

(** X10. [Card.__cmp__] never tells two cards apart: whenever it returns,
    the two cards have the same suit and the result is 0, so [==] on cards
    never returns [False]. It raises exactly when the suits differ or the
    value of the first card is no rank. *)
Theorem Card_cmp_never_orders (a b : Card) :
  (forall z, Card_cmp a b = Ok z -> z = 0%Z /\ suit a = suit b) /\
  (forall e, Card_eq a b = Ok e -> e = true) /\
  ((exists z, Card_cmp a b = Ok z) <->
   suit a = suit b /\ value a ∈ str_set CARD_VALUE_ORDER).
Proof.
  assert (Hinv : forall z, Card_cmp a b = Ok z ->
                           z = 0%Z /\ suit a = suit b /\
                           exists i, str_index CARD_VALUE_ORDER (value a) = Ok i).
  { intros z. unfold Card_cmp.
    destruct (bool_decide (suit a = suit b)) eqn:E; cbn [negb];
      [|discriminate].
    apply bool_decide_eq_true_1 in E. intros H.
    apply bind_Ok in H as (i & Hi & H). rewrite Hi in H. cbn [bind] in H.
    injection H as <-. split; [lia | split; [exact E | eauto]]. }
  split; [|split].
  - intros z Hz. destruct (Hinv z Hz) as (H0 & Hs & _). auto.
  - intros e. unfold Card_eq. intros H.
    apply bind_Ok in H as (z & Hz & H). destruct (Hinv z Hz) as (-> & _).
    injection H as <-. reflexivity.
  - split.
    + intros [z Hz]. destruct (Hinv z Hz) as (_ & Hs & i & Hi).
      split; [exact Hs|].
      clear -Hi. revert i Hi.
      induction CARD_VALUE_ORDER as [|d s IH]; intros i Hi;
        cbn [str_index str_set] in *; [discriminate|].
      destruct (Ascii.eqb d (value a)) eqn:E.
      * apply Ascii.eqb_eq in E. apply elem_of_union_l, elem_of_singleton.
        congruence.
      * apply bind_Ok in Hi as (j & Hj & _).
        apply elem_of_union_r. exact (IH j Hj).
    + intros [Hs Hv]. exists 0%Z. unfold Card_cmp.
      rewrite bool_decide_eq_true_2 by exact Hs. cbn [negb].
      destruct (str_index_Ok _ _ Hv) as [i Hi]. rewrite Hi. cbn [bind].
      f_equal. lia.
Qed.

(** ** Cards as text *)

Lemma Card_init_Ok (v s : ascii) (c : Card) :
  Card_init v s = Ok c -> c = mkCard v s /\ Card_valid c.
Proof.
  unfold Card_init, Card_valid.
  destruct (bool_decide (s ∈ str_set SUITS)) eqn:Es; cbn [negb];
    [|discriminate].
  destruct (bool_decide (v ∈ str_set CARD_VALUE_ORDER)) eqn:Ev; cbn [negb];
    [|discriminate].
  apply bool_decide_eq_true_1 in Es, Ev.
  intros [= <-]. cbn [value suit]. auto.
Qed.

Lemma Card_init_valid (c : Card) :
  Card_valid c -> Card_init (value c) (suit c) = Ok c.
Proof.
  intros [Hv Hs]. unfold Card_init.
  rewrite (bool_decide_eq_true_2 _ Hs), (bool_decide_eq_true_2 _ Hv).
  destruct c. reflexivity.
Qed.

(** X11. [Card.from_string] undoes [Card.__str__] on every valid card. The
    cards it returns are valid and spell the first two characters of the
    token, whatever follows them; a token of fewer than two characters
    raises [IndexError]. *)
Theorem Card_from_string_str :
  (forall c, Card_valid c -> Card_from_string (Card_str c) = Ok c) /\
  (forall s c, Card_from_string s = Ok c ->
               Card_valid c /\ exists rest, s = String.append (Card_str c) rest) /\
  (forall s, String.length s < 2 ->
             Card_from_string s
               = Raise (IndexError "string index out of range")).
Proof.
  split; [|split].
  - intros c Hc. unfold Card_str, Card_from_string. apply Card_init_valid, Hc.
  - intros s c. unfold Card_from_string.
    destruct s as [|v [|x rest]]; try discriminate.
    intros Hinit. apply Card_init_Ok in Hinit as [-> Hvalid].
    split; [exact Hvalid|]. exists rest. reflexivity.
  - intros s Hlen. unfold Card_from_string.
    destruct s as [|v [|x rest]]; [reflexivity | reflexivity|].
    cbn in Hlen. lia.
Qed.

Lemma Card_from_string_str_witness :
  Card_from_string "qh" = Ok (card "q" "h") /\
  Card_from_string "qhearts" = Ok (card "q" "h") /\
  Card_from_string "q" = Raise (IndexError "string index out of range").
Proof.
  destruct Card_from_string_str as (Hstr & _ & Hshort).
  split; [|split].
  - apply (Hstr (card "q" "h")).
    apply (bool_decide_unpack _). vm_compute. reflexivity.
  - reflexivity.
  - apply Hshort. simpl. lia.
Defined.

(** ** Hands as text *)

Lemma valid_not_blank (c : Card) :
  Card_valid c -> is_blank (value c) = false /\ is_blank (suit c) = false.
Proof.
  assert (Hranks : Forall (fun v => is_blank v = false)
                          (elements (str_set CARD_VALUE_ORDER)))
    by (apply (bool_decide_unpack _); vm_compute; reflexivity).
  assert (Hsuits : Forall (fun v => is_blank v = false)
                          (elements (str_set SUITS)))
    by (apply (bool_decide_unpack _); vm_compute; reflexivity).
  rewrite Forall_forall in Hranks, Hsuits.
  intros [Hv Hs]. split.
  - apply Hranks, elem_of_elements, Hv.
  - apply Hsuits, elem_of_elements, Hs.
Qed.

Lemma split_tokens_card (v s : ascii) (rest : string) :
  is_blank v = false -> is_blank s = false ->
  split_tokens [] (String v (String s (String " " rest)))
    = String v (String s EmptyString) :: split_tokens [] rest.
Proof.
  intros Hv Hs. cbn [split_tokens]. rewrite Hv, Hs. reflexivity.
Qed.

Lemma split_tokens_last (v s : ascii) :
  is_blank v = false -> is_blank s = false ->
  split_tokens [] (String v (String s EmptyString))
    = [String v (String s EmptyString)].
Proof.
  intros Hv Hs. cbn [split_tokens]. rewrite Hv, Hs. reflexivity.
Qed.

Lemma str_split_cards_str (cs : list Card) :
  Forall Card_valid cs -> str_split (cards_str cs) = map Card_str cs.
Proof.
  unfold str_split, cards_str.
  induction 1 as [|c cs Hc Hcs IH]; [reflexivity|].
  destruct (valid_not_blank c Hc) as [Hv Hs].
  destruct cs as [|c' cs].
  - cbn [map String.concat]. unfold Card_str. apply split_tokens_last; assumption.
  - change (String.concat " " (map Card_str (c :: c' :: cs)))
      with (String.append (Card_str c)
              (String.append " "
                 (String.concat " " (map Card_str (c' :: cs))))).
    unfold Card_str at 1.
    assert (Happ : forall v s r,
               String.append (String v (String s EmptyString))
                             (String.append " " r)
               = String v (String s (String " " r))) by reflexivity.
    rewrite Happ, split_tokens_card by assumption.
    rewrite IH. reflexivity.
Qed.

Lemma mapM_Card_from_string (cs : list Card) :
  Forall Card_valid cs -> mapM Card_from_string (map Card_str cs) = Ok cs.
Proof.
  induction 1 as [|c cs Hc _ IH]; [reflexivity|].
  cbn [map mapM].
  assert (Hparse : Card_from_string (Card_str c) = Ok c)
    by (unfold Card_str, Card_from_string; apply Card_init_valid, Hc).
  rewrite Hparse, IH. reflexivity.
Qed.

(** X12. Splitting the text of a list of valid cards into tokens and
    reading each token gives the list back: what [guess] does to a hand or
    deck string undoes what [Hand.__str__] prints. *)
Theorem cards_str_round_trip (cs : list Card) (Hcs : Forall Card_valid cs) :
  str_split (cards_str cs) = map Card_str cs /\
  mapM Card_from_string (str_split (cards_str cs)) = Ok cs.
Proof.
  split; [apply str_split_cards_str, Hcs|].
  rewrite (str_split_cards_str cs Hcs). apply mapM_Card_from_string, Hcs.
Qed.

Lemma cards_str_round_trip_witness :
  Forall Card_valid royal_deck /\
  cards_str royal_deck = "qh kh ah 2s 6s" /\
  mapM Card_from_string (str_split "qh kh ah 2s 6s") = Ok royal_deck.
Proof.
  assert (Hdeck : Forall Card_valid royal_deck)
    by (apply (bool_decide_unpack _); vm_compute; reflexivity).
  split; [exact Hdeck | split; [reflexivity|]].
  exact (proj2 (cards_str_round_trip royal_deck Hdeck)).
Defined.

(** X13. On the text of a valid hand and of a deck of valid cards [guess]
    is the label of the hand that [search] finds for them, and it raises
    what [search] raises. *)
Theorem guess_of_text (h : Hand) (deck : list Card)
    (Hv : Hand_valid h) (Hdeck : Forall Card_valid deck) :
  guess (Hand_str h) (cards_str deck)
    = (do best <- search h deck; human_classify best).
Proof.
  destruct Hv as [Hlen Hall]. unfold guess, Hand_str.
  rewrite (str_split_cards_str _ Hall), (mapM_Card_from_string _ Hall).
  cbn [bind]. unfold Hand_init. rewrite Hlen. cbn [Nat.eqb negb bind].
  rewrite (str_split_cards_str _ Hdeck), (mapM_Card_from_string _ Hdeck).
  cbn [bind]. destruct h. reflexivity.
Qed.

Lemma guess_of_text_witness :
  Hand_valid queens_set /\ Forall Card_valid royal_deck /\
  guess (Hand_str queens_set) (cards_str royal_deck) = Ok "royal-flush".
Proof.
  assert (Hv : Hand_valid queens_set)
    by (apply (bool_decide_unpack _); vm_compute; reflexivity).
  assert (Hdeck : Forall Card_valid royal_deck)
    by (apply (bool_decide_unpack _); vm_compute; reflexivity).
  split; [exact Hv | split; [exact Hdeck|]].
  rewrite (guess_of_text queens_set royal_deck Hv Hdeck).
  vm_compute. reflexivity.
Defined.

(** ** Labels *)

(** X14. On a valid hand [human_classify] returns the label that the table
    [klass] gives to the code of [classify_hand], one of the ten labels, and
    never raises [KeyError]; two valid hands get the same label exactly when
    they get the same code. *)
Theorem human_classify_label (h1 h2 : Hand)
    (Hv1 : Hand_valid h1) (Hv2 : Hand_valid h2) :
  (exists c label,
     classify_hand h1 = Ok c /\ human_classify h1 = Ok label /\
     klass c = Some label /\ label ∈ labels) /\
  (human_classify h1 = human_classify h2 <->
   classify_hand h1 = classify_hand h2).
Proof.
  destruct (classify_hand_range h1 Hv1) as [c1 [Hc1 Hr1]].
  destruct (classify_hand_range h2 Hv2) as [c2 [Hc2 Hr2]].
  unfold human_classify. rewrite Hc1, Hc2. cbn [bind]. split.
  - exists c1. clear Hc1. code_cases c1;
      (eexists; split; [reflexivity|]; split; [reflexivity|];
       split; [reflexivity|]; unfold labels;
       repeat (first [apply list_elem_of_here | apply list_elem_of_further])).
  - clear Hc1 Hc2. code_cases c1; code_cases c2;
      cbn [klass]; split; intros H; try discriminate H; reflexivity.
Qed.

Lemma human_classify_label_witness :
  Hand_valid queens_set /\ Hand_valid sevens_set /\
  human_classify queens_set = human_classify sevens_set.
Proof.
  assert (Hq : Hand_valid queens_set)
    by (apply (bool_decide_unpack _); vm_compute; reflexivity).
  assert (Hs : Hand_valid sevens_set)
    by (apply (bool_decide_unpack _); vm_compute; reflexivity).
  split; [exact Hq | split; [exact Hs|]].
  apply (human_classify_label queens_set sevens_set Hq Hs).
  vm_compute. reflexivity.
Defined.

(** ** The cards of the result *)

Lemma candidate_Ok_cards (s : gset Card) (deck : list Card) (num : nat)
    (t : list Card) (h : Hand) :
  candidate s deck num t = Ok h ->
  cards h = elements ((s ∖ list_to_set t) ∪ list_to_set (take num deck))
  /\ length (cards h) = 5.
Proof.
  unfold candidate, Hand_init. cbv zeta.
  destruct (Nat.eqb _ 5) eqn:E; cbn [negb]; [|discriminate].
  apply Nat.eqb_eq in E. intros [= <-]. cbn [cards]. auto.
Qed.

(** X15. The hand that [search] returns is the starting hand, or it has five
    pairwise distinct cards: for some [k] from 1 to 5, all of the first [k]
    cards of the deck together with the cards of the starting hand outside
    some [k] of them. *)
Theorem search_result_cards (hand : Hand) (deck : list Card) (best : Hand)
    (Hv : Hand_valid hand) (Hs : search hand deck = Ok best) :
  best = hand \/
  exists (k : nat) (T : gset Card),
    1 <= k <= 5 /\ T ⊆ hand_set hand /\ size T = k /\
    NoDup (cards best) /\ length (cards best) = 5 /\
    forall c, c ∈ cards best <->
              (c ∈ cards hand /\ c ∉ T) \/ c ∈ take k deck.
Proof.
  destruct (classify_hand_range hand Hv) as [c0 [Hc0 _]].
  destruct (search_loop_Ok _ _ _ _ Hs Hc0) as (cb & _ & _ & [Heq | [Hin _]]);
    [left; exact Heq | right].
  apply _search_space_In in Hin as (num & t & Hnum & Hin & Hcand).
  symmetry in Hcand. apply candidate_Ok_cards in Hcand as [Hcards Hlen].
  destruct (combinations_subset _ _ _ Hin) as [Hsub Hsize].
  exists num, (list_to_set t).
  split; [exact Hnum | split; [exact Hsub | split; [exact Hsize|]]].
  split; [rewrite Hcards; apply NoDup_elements | split; [exact Hlen|]].
  intros c. rewrite Hcards, elem_of_elements, elem_of_union,
    elem_of_difference, !elem_of_list_to_set. reflexivity.
Qed.

Lemma search_result_cards_witness :
  Hand_valid queens_set /\
  exists best,
    search queens_set royal_deck = Ok best /\
    (best = queens_set \/
     exists (k : nat) (T : gset Card),
       1 <= k <= 5 /\ T ⊆ hand_set queens_set /\ size T = k /\
       NoDup (cards best) /\ length (cards best) = 5 /\
       forall c, c ∈ cards best <->
                 (c ∈ cards queens_set /\ c ∉ T) \/ c ∈ take k royal_deck).
Proof.
  assert (Hv : Hand_valid queens_set)
    by (apply (bool_decide_unpack _); vm_compute; reflexivity).
  split; [exact Hv|].
  eexists. split; [vm_compute; reflexivity|].
  apply (search_result_cards queens_set royal_deck _ Hv).
  vm_compute. reflexivity.
Defined.

(** ** The size of the search space *)

Lemma search_loop_runs_through (space : list (result Hand)) :
  forall winning best : Hand,
    search_loop winning space = Ok best -> runs_through space.
Proof.
  unfold runs_through.
  induction space as [|step space IH]; intros winning best Hloop.
  - constructor.
  - cbn [search_loop] in Hloop.
    apply bind_Ok in Hloop as [new_hand [-> Hloop]].
    apply bind_Ok in Hloop as [better [_ Hloop]].
    constructor; [eauto | exact (IH _ _ Hloop)].
Qed.

(** X16. When [search] returns on a hand of five cards, no step of the
    search space has raised. And when no step of the search space of a hand
    of five cards raises, the cards of the hand are pairwise distinct and
    the generator yields exactly 31 hands, one for each non-empty subset of
    the hand's cards. *)
Theorem length_search_space_exact (hand : Hand) (deck : list Card)
    (Hlen : length (cards hand) = 5) :
  (forall best, search hand deck = Ok best ->
                runs_through (_search_space hand deck)) /\
  (runs_through (_search_space hand deck) ->
   NoDup (cards hand) /\
   length (_search_space hand deck) = 2 ^ size (hand_set hand) - 1 /\
   length (_search_space hand deck) = 31).
Proof.
  split; [intros best Hs; exact (search_loop_runs_through _ _ _ Hs)|].
  intros Hrun.
  assert (Hnd : NoDup (cards hand)).
  { destruct (decide (NoDup (cards hand))) as [Hnd | Hdup]; [exact Hnd|].
    pose proof (duplicate_raises hand deck Hlen Hdup) as Hin.
    unfold runs_through in Hrun. rewrite Forall_forall in Hrun.
    destruct (Hrun _ (proj2 (list_elem_of_In _ _) Hin)) as [h Hh].
    discriminate Hh. }
  assert (Hsize : size (hand_set hand) = 5)
    by (unfold hand_set; rewrite size_list_to_set, Hlen by exact Hnd;
        reflexivity).
  assert (Hexact : length (_search_space hand deck) = 31).
  { unfold _search_space. fold (hand_set hand). cbn [seq flat_map].
    rewrite !length_app, !length_map, !length_combinations, !length_elements.
    rewrite Hsize. reflexivity. }
  split; [exact Hnd | split; [|exact Hexact]].
  rewrite Hexact, Hsize. reflexivity.
Qed.

Lemma length_search_space_exact_witness :
  length (cards queens_set) = 5 /\
  runs_through (_search_space queens_set royal_deck) /\
  length (_search_space queens_set royal_deck) = 31.
Proof.
  assert (Hlen : length (cards queens_set) = 5) by reflexivity.
  destruct (length_search_space_exact queens_set royal_deck Hlen)
    as [Hruns Hexact].
  assert (Hrun : runs_through (_search_space queens_set royal_deck)).
  { eapply Hruns. vm_compute. reflexivity. }
  split; [exact Hlen | split; [exact Hrun|]].
  apply (Hexact Hrun).
Defined.

(** ** The ranks behind a code *)

Lemma counts_entries (h : Hand) :
  exists entries : list (ascii * nat),
    sorted_values (_count h) = map snd entries /\
    NoDup (map fst entries) /\
    Forall (fun e => held h (fst e) = snd e) entries.
Proof.
  destruct (Permutation_map_inv snd (map_to_list (_count h))
              (sorted_nat_Permutation _)) as (entries & Heq & Hperm).
  exists entries. split; [exact Heq | split].
  - rewrite <- Hperm. apply (NoDup_fst_map_to_list (_count h)).
  - rewrite <- Hperm. apply Forall_forall. intros [v n] Hin.
    apply elem_of_map_to_list, _count_lookup_held in Hin as [_ ->].
    reflexivity.
Qed.

Lemma held_at_most_one (h : Hand) :
  sorted_values (_count h) = [1; 1; 1; 1; 1] -> forall v, held h v <= 1.
Proof.
  intros Hones v. destruct (held h v) as [|n] eqn:E; [lia|].
  assert (Hin : S n ∈ sorted_values (_count h))
    by (apply counts_held; split; [lia | eauto]).
  rewrite Hones in Hin.
  repeat (apply elem_of_cons in Hin as [Hin | Hin]; [lia|]).
  apply elem_of_nil in Hin. destruct Hin.
Qed.

Lemma code_of_counts (same straight royal : bool) (counts : list nat) :
  (code_of same straight royal counts = 3 -> counts = [1; 4]) /\
  (code_of same straight royal counts = 4 -> counts = [2; 3]) /\
  (code_of same straight royal counts = 7 -> counts = [1; 1; 3]) /\
  (code_of same straight royal counts = 8 -> counts = [1; 2; 2]) /\
  (code_of same straight royal counts = 9 -> counts = [1; 1; 1; 2]).
Proof.
  unfold code_of.
  destruct same, straight, royal; cbn [andb];
    repeat case_bool_decide;
    repeat split; intros Hcode; try discriminate Hcode; congruence.
Qed.

Lemma code_of_distinct (same straight royal : bool) (counts : list nat) :
  code_of same straight royal counts = 1 \/
  code_of same straight royal counts = 2 \/
  code_of same straight royal counts = 6 ->
  royal = true \/ straight = true.
Proof.
  unfold code_of.
  destruct same, straight, royal; cbn [andb]; auto;
    repeat case_bool_decide;
    intros [Hcode | [Hcode | Hcode]]; discriminate Hcode.
Qed.

Ltac open_entries entries Hmap Hnd Hall :=
  repeat (destruct entries as [|[? ?] entries]; try discriminate Hmap);
  cbn [map fst snd] in Hmap, Hnd;
  injection Hmap as Hmap; subst;
  repeat match goal with
         | H : Forall _ (_ :: _) |- _ => apply Forall_cons in H as [? ?]
         | H : NoDup (_ :: _) |- _ => apply NoDup_cons in H as [? ?]
         | H : _ ∉ _ :: _ |- _ => apply not_elem_of_cons in H as [? ?]
         end;
  cbn [fst snd] in *.

(** X17. What the codes decided by the counts say about the ranks of a
    valid hand: four of a kind holds one rank four times and another once;
    a full house one rank three times and another twice; three of a kind one
    rank three times and two others once; two pairs two ranks twice and a
    third once; one pair one rank twice and three others once. A hand
    classified royal flush, straight flush or straight holds no rank
    twice. *)
Theorem classify_hand_held (h : Hand) (Hv : Hand_valid h) :
  (classify_hand h = Ok 3 ->
   exists v w, v <> w /\ held h v = 4 /\ held h w = 1) /\
  (classify_hand h = Ok 4 ->
   exists v w, v <> w /\ held h v = 3 /\ held h w = 2) /\
  (classify_hand h = Ok 7 ->
   exists v w u, v <> w /\ v <> u /\ w <> u /\
                 held h v = 3 /\ held h w = 1 /\ held h u = 1) /\
  (classify_hand h = Ok 8 ->
   exists v w u, v <> w /\ v <> u /\ w <> u /\
                 held h v = 2 /\ held h w = 2 /\ held h u = 1) /\
  (classify_hand h = Ok 9 ->
   exists v w u x, v <> w /\ v <> u /\ v <> x /\ w <> u /\ w <> x /\ u <> x /\
                   held h v = 2 /\ held h w = 1 /\ held h u = 1 /\
                   held h x = 1) /\
  (classify_hand h = Ok 1 \/ classify_hand h = Ok 2 \/
   classify_hand h = Ok 6 -> forall v, held h v <= 1).
Proof.
  destruct (classify_hand_table h Hv) as (same & st & Hsame & Hst & Hcode).
  destruct (counts_entries h) as (entries & Hmap & Hnd & Hall).
  destruct (code_of_counts same st
              (bool_decide (list_to_set (map value (cards h)) = royal_values))
              (sorted_values (_count h))) as (H3 & H4 & H7 & H8 & H9).
  rewrite Hcode.
  split; [|split; [|split; [|split; [|split]]]].
  - intros [= Hk]. rewrite (H3 Hk) in Hmap.
    open_entries entries Hmap Hnd Hall.
    match goal with
    | Ha : held h ?v = 4, Hb : held h ?w = 1 |- _ => exists v, w
    end.
    repeat split; congruence.
  - intros [= Hk]. rewrite (H4 Hk) in Hmap.
    open_entries entries Hmap Hnd Hall.
    match goal with
    | Ha : held h ?v = 3, Hb : held h ?w = 2 |- _ => exists v, w
    end.
    repeat split; congruence.
  - intros [= Hk]. rewrite (H7 Hk) in Hmap.
    open_entries entries Hmap Hnd Hall.
    match goal with
    | Ha : held h ?v = 3, Hb : held h ?w = 1, Hc : held h ?u = 1 |- _ =>
        tryif constr_eq w u then fail else exists v, w, u
    end.
    repeat split; congruence.
  - intros [= Hk]. rewrite (H8 Hk) in Hmap.
    open_entries entries Hmap Hnd Hall.
    match goal with
    | Ha : held h ?v = 2, Hb : held h ?w = 2, Hc : held h ?u = 1 |- _ =>
        tryif constr_eq v w then fail else exists v, w, u
    end.
    repeat split; congruence.
  - intros [= Hk]. rewrite (H9 Hk) in Hmap.
    open_entries entries Hmap Hnd Hall.
    match goal with
    | Ha : held h ?v = 2, Hb : held h ?w = 1, Hc : held h ?u = 1,
      Hd : held h ?x = 1 |- _ =>
        tryif first [constr_eq w u | constr_eq w x | constr_eq u x]
        then fail else exists v, w, u, x
    end.
    repeat split; congruence.
  - intros Hk. apply held_at_most_one.
    assert (Hk' : code_of same st
              (bool_decide (list_to_set (map value (cards h)) = royal_values))
              (sorted_values (_count h)) = 1 \/
            code_of same st
              (bool_decide (list_to_set (map value (cards h)) = royal_values))
              (sorted_values (_count h)) = 2 \/
            code_of same st
              (bool_decide (list_to_set (map value (cards h)) = royal_values))
              (sorted_values (_count h)) = 6).
    { destruct Hk as [Hk | [Hk | Hk]]; injection Hk as Hk; auto. }
    apply code_of_distinct in Hk' as [Hr | ->].
    + apply bool_decide_eq_true_1 in Hr.
      apply royal_distinct; [apply Hv | exact Hr].
    + apply (straight_distinct h Hv Hst).
Qed.

Lemma classify_hand_held_witness :
  Hand_valid queens_set /\
  exists v w u, v <> w /\ v <> u /\ w <> u /\
                held queens_set v = 3 /\ held queens_set w = 1 /\
                held queens_set u = 1.
Proof.
  assert (Hv : Hand_valid queens_set)
    by (apply (bool_decide_unpack _); vm_compute; reflexivity).
  split; [exact Hv|].
  apply (classify_hand_held queens_set Hv).
  vm_compute. reflexivity.
Defined.

(** ** Searching twice *)

Lemma search_loop_winner_valid (space : list (result Hand)) :
  forall winning best : Hand,
    Hand_valid winning -> Forall step_ok space ->
    search_loop winning space = Ok best -> Hand_valid best.
Proof.
  induction space as [|step space IH]; intros winning best Hw Hall Hloop.
  - injection Hloop as <-. exact Hw.
  - apply Forall_cons in Hall as [Hstep Hall]. cbn [search_loop] in Hloop.
    apply bind_Ok in Hloop as [new_hand [-> Hloop]].
    apply bind_Ok in Hloop as [better [_ Hloop]].
    destruct Hstep as [Hraise | [h [[= <-] Hh]]]; [discriminate|].
    apply (IH (if better then new_hand else winning) best);
      [destruct better; assumption | exact Hall | exact Hloop].
Qed.

(** X18. The hand that [search] returns cannot be searched again with the
    same deck: unless it is the starting hand, it holds the first card of
    the deck, and [search] on it raises the hand-size error. *)
Theorem search_again_raises (hand : Hand) (deck : list Card) (best : Hand)
    (Hv : Hand_valid hand) (Hdeck : Forall Card_valid deck)
    (Hs : search hand deck = Ok best) (Hnew : best <> hand) :
  (exists c, deck !! 0 = Some c /\ c ∈ cards best) /\
  search best deck = Raise hand_size_error.
Proof.
  assert (Hvb : Hand_valid best).
  { apply (search_loop_winner_valid (_search_space hand deck) hand best Hv);
      [|exact Hs].
    apply _search_space_step_ok; [apply Hv | exact Hdeck]. }
  destruct (classify_hand_range hand Hv) as [c0 [Hc0 _]].
  destruct (search_loop_Ok _ _ _ _ Hs Hc0) as (cb & _ & _ & [Heq | [Hin _]]);
    [contradiction|].
  apply _search_space_In in Hin as (num & t & Hnum & Hin & Hcand).
  symmetry in Hcand. apply candidate_Ok_cards in Hcand as [Hcards Hlen].
  destruct (candidate_size _ deck num _ Hin) as [Hle Hsize].
  pose proof (size_list_to_set_le (cards hand)) as Hhand.
  rewrite (proj1 Hv) in Hhand.
  assert (Hdrawn : exists c, deck !! 0 = Some c).
  { destruct deck as [|c deck]; [|eauto].
    rewrite <- length_elements, <- Hcards, Hlen in Hsize.
    cbn [length] in Hsize. lia. }
  destruct Hdrawn as [c Hc].
  assert (Hcb : c ∈ cards best).
  { rewrite Hcards. apply elem_of_elements, elem_of_union_r.
    apply elem_of_list_to_set, elem_of_take. exists 0. split; [exact Hc | lia]. }
  split; [eauto|].
  apply search_loop_raises.
  - exact Hvb.
  - apply _search_space_step_ok; [apply Hvb | exact Hdeck].
  - apply (drawn_twice_raises best deck c); [exact Hlen | | | exact Hcb].
    + rewrite Hcards. apply NoDup_elements.
    + apply elem_of_take. exists 0. split; [exact Hc | lia].
Qed.

Lemma search_again_raises_witness :
  Hand_valid queens_set /\ Forall Card_valid royal_deck /\
  exists best,
    search queens_set royal_deck = Ok best /\ best <> queens_set /\
    search best royal_deck = Raise hand_size_error.
Proof.
  assert (Hv : Hand_valid queens_set)
    by (apply (bool_decide_unpack _); vm_compute; reflexivity).
  assert (Hdeck : Forall Card_valid royal_deck)
    by (apply (bool_decide_unpack _); vm_compute; reflexivity).
  split; [exact Hv | split; [exact Hdeck|]].
  eexists. split; [vm_compute; reflexivity|].
  split; [apply (bool_decide_unpack _); vm_compute; reflexivity|].
  apply (search_again_raises queens_set royal_deck _ Hv Hdeck).
  - vm_compute. reflexivity.
  - apply (bool_decide_unpack _). vm_compute. reflexivity.
Defined.

(** ** The driver *)

(** X19. [guess] builds the hand before it reads the deck: on the text of
    any number of valid cards other than five it raises the hand-size error,
    whatever the deck string holds. *)
Theorem guess_hand_size (cs : list Card) (deck : string)
    (Hcs : Forall Card_valid cs) (Hlen : length cs <> 5) :
  guess (cards_str cs) deck = Raise hand_size_error.
Proof.
  unfold guess.
  rewrite (str_split_cards_str _ Hcs), (mapM_Card_from_string _ Hcs).
  cbn [bind]. unfold Hand_init.
  apply Nat.eqb_neq in Hlen. rewrite Hlen. reflexivity.
Qed.

Lemma guess_hand_size_witness :
  Forall Card_valid short_deck /\ length short_deck <> 5 /\
  guess "6s kh 9h ad" "not a deck" = Raise hand_size_error.
Proof.
  assert (Hcs : Forall Card_valid short_deck)
    by (apply (bool_decide_unpack _); vm_compute; reflexivity).
  assert (Hlen : length short_deck <> 5) by (simpl; lia).
  split; [exact Hcs | split; [exact Hlen|]].
  exact (guess_hand_size short_deck "not a deck" Hcs Hlen).
Defined.
